(** * Patient Management API (main.py): a shallow embedding and its properties

    The service keeps every patient in one JSON file, [patients.json], a
    JSON object from patient identifier to the record's fields.  Each
    handler loads the whole file, works on the loaded dictionary and, for
    the writing operations, dumps the whole dictionary back.

    Modelling choices, all visible in the definitions below:
    - Python dictionaries are insertion-ordered, so a dictionary is an
      association list with pairwise distinct keys ([Dict.wf]); the order
      is observable through [sorted(data.values(), ...)].
    - A JSON value is what [json.load] yields: [None], [bool], [int],
      [float], [str], [list] or [dict].  Python's [int] is [Z]; Python's
      [float] is the IEEE binary64 number of the kernel, with its
      rounding, its infinities and its NaN.
    - Exceptions are an error monad; the file is threaded as state.
    - A handler that executes [return HTTPException(...)] hands the
      exception object back as an ordinary value; the response type keeps
      that apart from [JSONResponse(status_code=...)], and [serve] says
      which status code the framework puts on the wire for each.
    - [round], [sorted] and pydantic's validation and dump are library
      code; they are modelled next to the functions that call them.  What
      the language leaves to the platform (the C library's [pow], the
      order [sorted] leaves when [<] is no order on the keys, pydantic's
      reading of numeric strings) is a parameter. *)

From Stdlib Require Import List String Ascii Bool ZArith QArith Qround Qabs.
From Stdlib Require Import Lia Lqa Permutation Sorted RelationClasses Morphisms.
From Stdlib Require Import Floats.
Import ListNotations.

#[local] Set Warnings "-inexact-float,-register-all".

Local Open Scope string_scope.
Local Open Scope Z_scope.

(** ** Exceptions *)

Inductive exn : Type :=
| ZeroDivisionError
| OverflowError
| TypeError
| ValidationError.

Inductive result (A : Type) : Type :=
| Ok (a : A)
| Raise (e : exn).
Arguments Ok {A} a.
Arguments Raise {A} e.

Definition rbind {A B : Type} (r : result A) (k : A -> result B) : result B :=
  match r with
  | Ok a => k a
  | Raise e => Raise e
  end.

Declare Scope result_scope.
Delimit Scope result_scope with result.
Notation "x <- r ;; k" := (rbind r (fun x => k))
  (at level 61, r at next level, right associativity) : result_scope.

(** ** Python dictionaries with string keys *)

Module Dict.
Section Dict.
Context {V : Type}.

Definition dict : Type := list (string * V).

Definition keys (d : dict) : list string := map fst d.

(** [d.values()] *)
Definition values (d : dict) : list V := map snd d.

(** [d.get(k)] *)
Fixpoint get (k : string) (d : dict) : option V :=
  match d with
  | [] => None
  | (k', v) :: d' => if String.eqb k k' then Some v else get k d'
  end.

(** [k in d] *)
Definition mem (k : string) (d : dict) : bool :=
  match get k d with Some _ => true | None => false end.

(** [d[k] = v]: an existing key keeps its position, a new key goes last. *)
Fixpoint set (k : string) (v : V) (d : dict) : dict :=
  match d with
  | [] => [(k, v)]
  | (k', v') :: d' =>
      if String.eqb k k' then (k, v) :: d' else (k', v') :: set k v d'
  end.

(** [del d[k]] *)
Fixpoint del (k : string) (d : dict) : dict :=
  match d with
  | [] => []
  | (k', v') :: d' =>
      if String.eqb k k' then d' else (k', v') :: del k d'
  end.

(** A dictionary never holds a key twice. *)
Definition wf (d : dict) : Prop := NoDup (keys d).

End Dict.
Arguments dict V : clear implicits.
End Dict.

(** ** Python floats

    A [float] is a binary64 number; [x / y] and [x * y] below are the
    correctly rounded operations of the kernel.  What a double is worth is
    read off its sign, mantissa and exponent. *)

(** The extended rationals a double that is no NaN stands for. *)
Inductive xval : Type :=
| NegInf
| Fin (q : Q)
| PosInf.

(** The exact value of a double; a NaN has none. *)
Definition value (x : float) : option xval :=
  match Prim2SF x with
  | S754_nan => None
  | S754_infinity s => Some (if s then NegInf else PosInf)
  | S754_zero _ => Some (Fin 0)
  | S754_finite s m e =>
      let n := if s then Z.neg m else Z.pos m in
      Some (Fin (match e with
                 | Z.neg k => Qmake n (2 ^ k)
                 | _ => inject_Z (n * 2 ^ e)
                 end))
  end.

Definition Qltb (x y : Q) : bool := negb (Qle_bool y x).

Definition xltb (a b : xval) : bool :=
  match a, b with
  | _, NegInf | PosInf, _ => false
  | NegInf, _ | _, PosInf => true
  | Fin p, Fin q => Qltb p q
  end.

Definition xleb (a b : xval) : bool :=
  match a, b with
  | NegInf, _ | _, PosInf => true
  | _, NegInf | PosInf, _ => false
  | Fin p, Fin q => Qle_bool p q
  end.

Definition xeqb (a b : xval) : bool :=
  match a, b with
  | NegInf, NegInf | PosInf, PosInf => true
  | Fin p, Fin q => Qeq_bool p q
  | _, _ => false
  end.

(** [x < y] and [x <= y] on doubles: false as soon as one side is a NaN,
    the comparison of the values otherwise (the two zeros are equal). *)
Definition flt (x y : float) : bool :=
  match value x, value y with
  | Some a, Some b => xltb a b
  | _, _ => false
  end.

Definition fle (x y : float) : bool :=
  match value x, value y with
  | Some a, Some b => xleb a b
  | _, _ => false
  end.

(** [x == 0.0] *)
Definition is_zero (x : float) : bool :=
  match Prim2SF x with
  | S754_zero _ => true
  | _ => false
  end.

Definition is_infinite (x : float) : bool :=
  match Prim2SF x with
  | S754_infinity _ => true
  | _ => false
  end.

Definition is_nan (x : float) : bool :=
  match Prim2SF x with
  | S754_nan => true
  | _ => false
  end.

(** The sign bit, which a zero has too. *)
Definition sign_bit (x : float) : bool :=
  match Prim2SF x with
  | S754_zero s | S754_infinity s | S754_finite s _ _ => s
  | S754_nan => false
  end.

(** The double nearest to [n / d] (ties to the even mantissa), which is
    what reading a decimal literal or converting an [int] gives. *)
Definition float_of_ratio (n : Z) (d : positive) : float :=
  match n with
  | Z0 => PrimFloat.zero
  | Z.pos m =>
      SF2Prim (SFdiv prec emax (S754_finite false m 0) (S754_finite false d 0))
  | Z.neg m =>
      SF2Prim (SFdiv prec emax (S754_finite true m 0) (S754_finite false d 0))
  end.

(** [float(z)] *)
Definition float_of_Z (z : Z) : float := float_of_ratio z 1.

(** ** JSON values *)

(** What [json.load] yields. *)
Inductive jval : Type :=
| JNull
| JBool (b : bool)
| JInt (z : Z)
| JFloat (x : float)
| JStr (s : string)
| JArr (l : list jval)
| JObj (o : list (string * jval)).

(** The fields of one patient as stored, and the whole file. *)
Definition record : Type := Dict.dict jval.
Definition store : Type := Dict.dict record.

(** ** What the language leaves to the platform *)

Class Platform : Type := {
  (** [pow(x, 2.0)] of the C library on a finite double [x > 0]. *)
  pow_two : float -> float;
  (** The list [sorted] leaves when [<] does not order the keys: a NaN
      among numbers, or keys that are lists. *)
  unordered_sort :
    forall A : Type, (A -> jval) -> list A -> bool -> result (list A)
}.

(** The platform of the examples: a [pow] that returns the correctly
    rounded square, a [sorted] that leaves such a list as it is. *)
Definition reference : Platform := {|
  pow_two := fun x => PrimFloat.mul x x;
  unordered_sort := fun A _ l _ => Ok l
|}.

(** ** Python arithmetic *)

(** [a / b] on floats. *)
Definition py_div (a b : float) : result float :=
  if is_zero b then Raise ZeroDivisionError else Ok (PrimFloat.div a b).

(** [x ** 2] on a float, after [float_pow]: a NaN stays, an infinity and a
    zero lose their sign, the sign of [x] is dropped before the C library
    is asked, 1.0 is answered without asking, and a result that is
    infinite is an [OverflowError]. *)
Definition py_pow_two `{Platform} (x : float) : result float :=
  match Prim2SF x with
  | S754_nan => Ok x
  | S754_infinity _ => Ok PrimFloat.infinity
  | S754_zero _ => Ok PrimFloat.zero
  | S754_finite _ _ _ =>
      let iv := PrimFloat.abs x in
      if PrimFloat.eqb iv PrimFloat.one then Ok PrimFloat.one
      else
        let ix := pow_two iv in
        if is_infinite ix then Raise OverflowError else Ok ix
  end.

(** Nearest integer, a tie going to the even neighbour. *)
Definition round_half_even (x : Q) : Z :=
  let f := Qfloor x in
  match (x - inject_Z f ?= 1 # 2)%Q with
  | Lt => f
  | Gt => f + 1
  | Eq => if Z.even f then f else f + 1
  end.

(** The builtin [round(x, ndigits)] on a float, [ndigits >= 0]: the exact
    value of the double is rounded to [ndigits] decimals, ties to even,
    and the decimal is read back as the nearest double.  A NaN and an
    infinity round to themselves; a zero result keeps the sign of [x]. *)
Definition py_round (x : float) (ndigits : nat) : float :=
  match value x with
  | Some (Fin q) =>
      let p := Z.pow 10 (Z.of_nat ndigits) in
      match round_half_even (q * inject_Z p)%Q with
      | Z0 => if sign_bit x then PrimFloat.neg_zero else PrimFloat.zero
      | n => float_of_ratio n (Z.to_pos p)
      end
  | _ => x
  end.

(** ** The builtin [sorted(iterable, key=..., reverse=...)]

    The keys are compared with [<] only.  Numbers compare with numbers
    by value, strings with strings, lists with lists; any other pair is a
    [TypeError], and a sort of two or more elements cannot avoid such a
    pair when the keys are not all of one kind.  Where [<] orders the keys
    the sort is stable, and with [reverse=True] the list is reversed,
    sorted and reversed again, which keeps equal keys in their original
    order; a stable sort has one possible result, so insertion stands for
    the builtin's algorithm there.  Where [<] is no order the result is
    the platform's. *)

Inductive key_kind : Type := Number | Text | Sequence.

Definition kind_of (v : jval) : option key_kind :=
  match v with
  | JBool _ | JInt _ | JFloat _ => Some Number
  | JStr _ => Some Text
  | JArr _ => Some Sequence
  | JNull | JObj _ => None
  end.

(** The value of a number ([bool] is an [int]); none for a NaN. *)
Definition number (v : jval) : option xval :=
  match v with
  | JBool b => Some (Fin (inject_Z (Z.b2z b)))
  | JInt z => Some (Fin (inject_Z z))
  | JFloat x => value x
  | _ => None
  end.

(** [a < b] where it orders: on numbers that are no NaN and on strings. *)
Definition key_lt (a b : jval) : bool :=
  match a, b with
  | JStr s, JStr t => String.ltb s t
  | _, _ =>
      match number a, number b with
      | Some x, Some y => xltb x y
      | _, _ => false
      end
  end.

Definition kind_eqb (j k : key_kind) : bool :=
  match j, k with
  | Number, Number | Text, Text | Sequence, Sequence => true
  | _, _ => false
  end.

(** The kind all the keys share, if they share one. *)
Definition common_kind (keys : list jval) : option key_kind :=
  match keys with
  | [] => None
  | v :: vs =>
      match kind_of v with
      | Some k =>
          if forallb (fun w => match kind_of w with
                               | Some j => kind_eqb j k
                               | None => false
                               end) vs
          then Some k else None
      | None => None
      end
  end.

Definition nan_key (v : jval) : bool :=
  match v with
  | JFloat x => is_nan x
  | _ => false
  end.

Section Sorted.
Context `{Platform} {A : Type}.
Variable key : A -> jval.

Fixpoint insert (x : A) (l : list A) : list A :=
  match l with
  | [] => [x]
  | y :: l' => if key_lt (key y) (key x) then y :: insert x l' else x :: y :: l'
  end.

Fixpoint sort_stable (l : list A) : list A :=
  match l with
  | [] => []
  | x :: l' => insert x (sort_stable l')
  end.

Definition sort_ordered (l : list A) (reverse : bool) : list A :=
  if reverse then rev (sort_stable (rev l)) else sort_stable l.

Definition sorted (l : list A) (reverse : bool) : result (list A) :=
  if (List.length l <? 2)%nat then Ok l
  else
    match common_kind (map key l) with
    | None => Raise TypeError
    | Some Text => Ok (sort_ordered l reverse)
    | Some Number =>
        if existsb nan_key (map key l) then unordered_sort A key l reverse
        else Ok (sort_ordered l reverse)
    | Some Sequence => unordered_sort A key l reverse
    end.
End Sorted.

(** ** The record model: [class Patient(BaseModel)] *)

Module Patient.

Record t : Type := Build {
  id : string;
  name : string;
  city : string;
  age : Z;
  gender : string;
  height : float;
  weight : float
}.

(** The [Field] constraints: [age] with [gt=0, lt=120], [height] and
    [weight] with [gt=0]. *)
Definition constraints (p : t) : bool :=
  (0 <? age p) && (age p <? 120) &&
  flt 0%float (height p) && flt 0%float (weight p).

(** [round(self.weight / (self.height / 100) ** 2, 2)] *)
Definition bmi `{Platform} (self : t) : result float :=
  (h <- py_div (height self) 100%float ;;
   s <- py_pow_two h ;;
   q <- py_div (weight self) s ;;
   Ok (py_round q 2))%result.

(** The [if]/[elif] chain of the source; [self.bmi] is a property and is
    evaluated again in every test. *)
Definition verdict `{Platform} (self : t) : result string :=
  (b1 <- bmi self ;;
   if flt b1 18.5%float then Ok "Underweight" else
   b2 <- bmi self ;;
   if fle 18.5%float b2 && flt b2 24.9%float then Ok "Healthy" else
   b3 <- bmi self ;;
   if fle 25%float b3 && flt b3 29.9%float then Ok "Overweight" else
   Ok "Obese")%result.

(** [self.model_dump(exclude=['id'])]: the declared fields but [id], in
    declaration order, followed by the two [computed_field]s. *)
Definition model_dump_exclude_id `{Platform} (self : t) : result record :=
  (b <- bmi self ;;
   v <- verdict self ;;
   Ok [("name", JStr (name self));
       ("city", JStr (city self));
       ("age", JInt (age self));
       ("gender", JStr (gender self));
       ("height", JFloat (height self));
       ("weight", JFloat (weight self));
       ("bmi", JFloat b);
       ("verdict", JStr v)])%result.

(** Validation of keyword arguments (the constructor call on an unpacked
    dictionary) in pydantic's default, lax mode.  How a string is read
    as a number is pydantic's business and stays a parameter. *)
Section Validation.
Variable str_as_int : string -> option Z.
Variable str_as_float : string -> option float.

Definition of_option {A : Type} (o : option A) : result A :=
  match o with
  | Some a => Ok a
  | None => Raise ValidationError
  end.

(** A [str] field takes a string and nothing else. *)
Definition validate_str (v : option jval) : result string :=
  match v with
  | Some (JStr s) => Ok s
  | _ => Raise ValidationError
  end.

(** An [int] field takes an int, a bool, a finite float without fractional
    part or a numeric string. *)
Definition validate_int (v : option jval) : result Z :=
  match v with
  | Some (JInt z) => Ok z
  | Some (JBool b) => Ok (Z.b2z b)
  | Some (JFloat x) =>
      match value x with
      | Some (Fin q) =>
          if Qeq_bool q (inject_Z (Qfloor q)) then Ok (Qfloor q)
          else Raise ValidationError
      | _ => Raise ValidationError
      end
  | Some (JStr s) => of_option (str_as_int s)
  | _ => Raise ValidationError
  end.

(** A [float] field takes a float (a NaN or an infinity too), an int that
    a double can hold, a bool or a numeric string. *)
Definition validate_float (v : option jval) : result float :=
  match v with
  | Some (JFloat x) => Ok x
  | Some (JInt z) =>
      if is_infinite (float_of_Z z) then Raise ValidationError
      else Ok (float_of_Z z)
  | Some (JBool b) => Ok (float_of_Z (Z.b2z b))
  | Some (JStr s) => of_option (str_as_float s)
  | _ => Raise ValidationError
  end.

(** Every declared field is required; keys that are no field of the model
    (such as a stored [bmi] or [verdict]) are ignored. *)
Definition validate (kwargs : record) : result t :=
  (i <- validate_str (Dict.get "id" kwargs) ;;
   n <- validate_str (Dict.get "name" kwargs) ;;
   c <- validate_str (Dict.get "city" kwargs) ;;
   a <- validate_int (Dict.get "age" kwargs) ;;
   g <- validate_str (Dict.get "gender" kwargs) ;;
   h <- validate_float (Dict.get "height" kwargs) ;;
   w <- validate_float (Dict.get "weight" kwargs) ;;
   let p := Build i n c a g h w in
   if constraints p then Ok p else Raise ValidationError)%result.
End Validation.

End Patient.

(** ** The partial payload: [class PatientUpdate(BaseModel)] *)

Module PatientUpdate.

(** [Literal['Male', 'Female']] *)
Inductive Gender : Type := Male | Female.

Definition gender_str (g : Gender) : string :=
  match g with
  | Male => "Male"
  | Female => "Female"
  end.

(** Every field is [Optional] with default [None], and pydantic remembers
    which fields the request set: [None] here is a field left unset,
    [Some None] a field set to [null], [Some (Some v)] a field set to [v]. *)
Record t : Type := Build {
  name : option (option string);
  city : option (option string);
  age : option (option Z);
  gender : option (option Gender);
  height : option (option float);
  weight : option (option float)
}.

Definition entry {A : Type} (k : string) (inj : A -> jval)
    (f : option (option A)) : list (string * jval) :=
  match f with
  | None => []
  | Some None => [(k, JNull)]
  | Some (Some v) => [(k, inj v)]
  end.

(** [self.model_dump(exclude_unset=True)] *)
Definition model_dump_exclude_unset (self : t) : record :=
  (entry "name" JStr (name self) ++
   entry "city" JStr (city self) ++
   entry "age" JInt (age self) ++
   entry "gender" (fun g => JStr (gender_str g)) (gender self) ++
   entry "height" JFloat (height self) ++
   entry "weight" JFloat (weight self))%list.

End PatientUpdate.

(** ** The file and the handlers *)

(** A handler runs on the content of [patients.json] and leaves a content
    behind; an exception keeps whatever was written before it. *)
Definition M (A : Type) : Type := store -> result A * store.

Definition ret {A : Type} (a : A) : M A := fun s => (Ok a, s).

Definition bind {A B : Type} (m : M A) (k : A -> M B) : M B :=
  fun s =>
    match m s with
    | (Ok a, s') => k a s'
    | (Raise e, s') => (Raise e, s')
    end.

Definition lift {A : Type} (r : result A) : M A := fun s => (r, s).

Declare Scope handler_scope.
Delimit Scope handler_scope with handler.
Notation "x <- m ;; k" := (bind m (fun x => k))
  (at level 61, m at next level, right associativity) : handler_scope.

(** [json.load] of the file. *)
Definition load_data : M store := fun s => (Ok s, s).

(** [json.dump(data, f)] into the file opened with mode ['w']. *)
Definition save_data (data : store) : M unit := fun _ => (Ok tt, data).

(** What a handler can hand to the framework as a body. *)
Inductive content : Type :=
| Message (m : string)
| Patients (data : store)
| OnePatient (r : record)
| Records (l : list record).

(** A handler's return value: a plain body, an [HTTPException] object that
    is returned (not raised), or a [JSONResponse] with its status code. *)
Inductive response : Type :=
| Body (c : content)
| HTTPException (status_code : Z) (detail : string)
| JSONResponse (status_code : Z) (c : content).

Definition hello : M response :=
  ret (Body (Message "Patient Management System Api")).

Definition about : M response :=
  ret (Body (Message "A Fully functional Api to manage your patients records")).

Definition view : M response :=
  (data <- load_data ;;
   ret (Body (Patients data)))%handler.

Definition view_patient (patient_id : string) : M response :=
  (data <- load_data ;;
   match Dict.get patient_id data with
   | Some r => ret (Body (OnePatient r))
   | None => ret (HTTPException 404 "Patient not found")
   end)%handler.

Definition valid_fields : list string := ["height"; "weight"; "bmi"].

Definition valid_orders : list string := ["asc"; "desc"].

(** [x in l] on a list of strings. *)
Definition str_in (x : string) (l : list string) : bool :=
  existsb (String.eqb x) l.

(** [lambda x: x.get(sort_by, 0)] *)
Definition sort_key (sort_by : string) (x : record) : jval :=
  match Dict.get sort_by x with
  | Some v => v
  | None => JInt 0
  end.

Definition sort_patients `{Platform} (sort_by order : string) : M response :=
  if negb (str_in sort_by valid_fields) then
    ret (HTTPException 400
           "Invalid sort field selected from ['height', 'weight', 'bmi']")
  else if negb (str_in order valid_orders) then
    ret (HTTPException 400
           "Invalid sort order selected. Please select asc or desc")
  else
    (data <- load_data ;;
     sorted_data <- lift (sorted (sort_key sort_by) (Dict.values data)
                                 (String.eqb order "desc")) ;;
     ret (Body (Records sorted_data)))%handler.

(** The file is written twice with the same dictionary: once by the
    handler's own [json.dump(data, f, indent=4)], once by [save_data]. *)
Definition create_patient `{Platform} (patient : Patient.t) : M response :=
  (data <- load_data ;;
   if Dict.mem (Patient.id patient) data then
     ret (HTTPException 400 "Patient with this ID already exists")
   else
     dumped <- lift (Patient.model_dump_exclude_id patient) ;;
     let data := Dict.set (Patient.id patient) dumped data in
     _ <- save_data data ;;
     _ <- save_data data ;;
     ret (JSONResponse 201 (Message "Patient created successfully")))%handler.

(** The loop [for key, value in updated_patient_info.items()]. *)
Definition merge (existing updated : record) : record :=
  fold_left (fun d kv => Dict.set (fst kv) (snd kv) d) updated existing.

Section Update.
Context `{Platform}.
Variable str_as_int : string -> option Z.
Variable str_as_float : string -> option float.

(** The merge loop works on the very dictionary that [data] holds under
    [patient_id]; [data] is local to the call and that entry is replaced
    before the only [save_data], so the names below are rebound as in the
    source and nothing reaches the file before the save. *)
Definition update_patient (patient_id : string)
    (patient_update : PatientUpdate.t) : M response :=
  (data <- load_data ;;
   match Dict.get patient_id data with
   | None => ret (JSONResponse 404 (Message "Patient not found"))
   | Some existring_patient_info =>
       let updated_patient_info :=
         PatientUpdate.model_dump_exclude_unset patient_update in
       let existring_patient_info :=
         merge existring_patient_info updated_patient_info in
       let existring_patient_info :=
         Dict.set "id" (JStr patient_id) existring_patient_info in
       patient_pydantic_obj <-
         lift (Patient.validate str_as_int str_as_float existring_patient_info) ;;
       existring_patient_info <-
         lift (Patient.model_dump_exclude_id patient_pydantic_obj) ;;
       let data := Dict.set patient_id existring_patient_info data in
       _ <- save_data data ;;
       ret (JSONResponse 200 (Message "Patient updated successfully"))
   end)%handler.
End Update.

Definition delete_patient (patient_id : string) : M response :=
  (data <- load_data ;;
   if negb (Dict.mem patient_id data) then
     ret (JSONResponse 404 (Message "Patient not found"))
   else
     let data := Dict.del patient_id data in
     _ <- save_data data ;;
     ret (JSONResponse 200 (Message "Patient deleted successfully")))%handler.

(** ** What goes out on the wire

    The framework sends a returned [JSONResponse] with the status code it
    carries.  Any other returned value, a returned [HTTPException] object
    included, is JSON-encoded and sent under the route's status code,
    which is 200 for every route of this file.  An exception that escapes
    the handler becomes a 500. *)
Definition status_sent (r : response) : Z :=
  match r with
  | JSONResponse status_code _ => status_code
  | Body _ | HTTPException _ _ => 200
  end.

Definition serve (handler : M response) (s : store) : Z * store :=
  match handler s with
  | (Ok r, s') => (status_sent r, s')
  | (Raise _, s') => (500, s')
  end.

(** ** Vocabulary of the statements *)

Local Open Scope Q_scope.

(** [r] is the rational [x] rounded to two decimals: a whole number of
    hundredths, nearest to [x], the even one at a tie. *)
Definition nearest_hundredth (x r : Q) : Prop :=
  exists n : Z,
    r == inject_Z n / 100 /\
    Qabs (x * 100 - inject_Z n) <= 1 # 2 /\
    (Qabs (x * 100 - inject_Z n) == 1 # 2 -> Z.even n = true).

(** The patient of the [Field] examples in the source. *)
Definition john : Patient.t :=
  Patient.Build "P001" "John Doe" "New York" 30 "Male" 180%float 75%float.

(** The fields a client supplies for a record, identifier apart. *)
Definition base_fields : list string :=
  ["name"; "city"; "age"; "gender"; "height"; "weight"].

(** A stored value that holds base fields only. *)
Definition only_base_fields (r : record) : Prop :=
  forall k, In k (Dict.keys r) -> In k base_fields.

(** The keys [model_dump(exclude=['id'])] writes. *)
Definition dumped_fields : list string :=
  ["name"; "city"; "age"; "gender"; "height"; "weight"; "bmi"; "verdict"].

(** A status code of the 2xx class sent through [JSONResponse]. *)
Definition is_success (r : response) : bool :=
  match r with
  | JSONResponse c _ => (200 <=? c)%Z && (c <? 300)%Z
  | _ => false
  end.

(** The three writing operations, each aimed at one identifier. *)
Inductive operation : Type :=
| Create (patient : Patient.t)
| Update (patient_id : string) (patient_update : PatientUpdate.t)
| Delete (patient_id : string).

Definition target (op : operation) : string :=
  match op with
  | Create patient => Patient.id patient
  | Update patient_id _ => patient_id
  | Delete patient_id => patient_id
  end.

Definition run `{Platform} (str_as_int : string -> option Z)
    (str_as_float : string -> option float) (op : operation) : M response :=
  match op with
  | Create patient => create_patient patient
  | Update patient_id patient_update =>
      update_patient str_as_int str_as_float patient_id patient_update
  | Delete patient_id => delete_patient patient_id
  end.

Definition writes_record (op : operation) : bool :=
  match op with
  | Create _ | Update _ _ => true
  | Delete _ => false
  end.

(** A string-to-number reading that accepts no string at all; any other
    reading serves as well where a concrete one is needed. *)
Definition no_str_as_int (s : string) : option Z := None.
Definition no_str_as_float (s : string) : option float := None.

(** What the file holds for [john] once he is created. *)
Definition john_record : record :=
  [("name", JStr "John Doe"); ("city", JStr "New York");
   ("age", JInt 30); ("gender", JStr "Male");
   ("height", JFloat 180%float); ("weight", JFloat 75%float);
   ("bmi", JFloat 23.15%float); ("verdict", JStr "Healthy")].

(** A record written by hand: whole numbers, no derived fields. *)
Definition jane_record : record :=
  [("name", JStr "Jane Doe"); ("city", JStr "Boston");
   ("age", JInt 41); ("gender", JStr "Female");
   ("height", JInt 160); ("weight", JInt 50)].

Definition two_patients : store :=
  [("P001", john_record); ("P002", jane_record)].

(** A payload that sets the weight and nothing else. *)
Definition weight_only (w : float) : PatientUpdate.t :=
  PatientUpdate.Build None None None None None (Some (Some w)).

(** The JSON value of a field the request set: [null] or the value. *)
Definition set_to {A : Type} (inj : A -> jval) (o : option A) : jval :=
  match o with
  | None => JNull
  | Some a => inj a
  end.

(** What a partial payload supplies for a field name, if anything. *)
Definition supplied (u : PatientUpdate.t) (f : string) : option jval :=
  if String.eqb f "name" then option_map (set_to JStr) (PatientUpdate.name u)
  else if String.eqb f "city" then
    option_map (set_to JStr) (PatientUpdate.city u)
  else if String.eqb f "age" then
    option_map (set_to JInt) (PatientUpdate.age u)
  else if String.eqb f "gender" then
    option_map (set_to (fun g => JStr (PatientUpdate.gender_str g)))
               (PatientUpdate.gender u)
  else if String.eqb f "height" then
    option_map (set_to JFloat) (PatientUpdate.height u)
  else if String.eqb f "weight" then
    option_map (set_to JFloat) (PatientUpdate.weight u)
  else None.

(** The supplied value where the payload has one, the prior value where
    it has none. *)
Definition merged_value (u : PatientUpdate.t) (old : record) (f : string)
  : option jval :=
  match supplied u f with
  | Some v => Some v
  | None => Dict.get f old
  end.


(** A record as [update_patient] hands it to the record model: the stored
    record with the payload merged in and the identifier added. *)
Definition merged_record (patient_id : string) (u : PatientUpdate.t)
    (old : record) : record :=
  Dict.set "id" (JStr patient_id)
    (merge old (PatientUpdate.model_dump_exclude_unset u)).

(** John's record with a stale bmi, a stale verdict and a key of no
    field; the base fields are those of [john_record]. *)
Definition john_stale : record :=
  [("name", JStr "John Doe"); ("city", JStr "New York");
   ("age", JInt 30); ("gender", JStr "Male");
   ("height", JFloat 180%float); ("weight", JFloat 75%float);
   ("bmi", JFloat 99%float); ("verdict", JStr "Obese"); ("phone", JStr "555")].

(** The payload of a request with an empty body: no field is set. *)
Definition nothing_set : PatientUpdate.t :=
  PatientUpdate.Build None None None None None None.

(** *** Sorting, in the words of the specification *)

(** The record values of the file, in file order. *)
Definition stored_records (s : store) : list record := map snd s.

(** The value a record holds under a field name, if it has the field. *)
Definition stored_field (f : string) (r : record) : option jval :=
  option_map snd (find (fun kv => String.eqb (fst kv) f) r).

(** A record without the field counts as holding 0. *)
Definition field_or_zero (f : string) (r : record) : jval :=
  match stored_field f r with
  | Some v => v
  | None => JInt 0
  end.

(** The number a JSON value is: 0 or 1 for a boolean, the integer, the
    value of the double.  A NaN and a value that is no number have none. *)
Definition numeric_value (v : jval) : option xval :=
  match v with
  | JBool false => Some (Fin 0)
  | JBool true => Some (Fin 1)
  | JInt z => Some (Fin (inject_Z z))
  | JFloat x => value x
  | _ => None
  end.

(** The record holds a number that is no NaN in the field, or lacks it. *)
Definition has_number (f : string) (r : record) : Prop :=
  numeric_value (field_or_zero f r) <> None.

(** [a] does not come after [b] in the order of the field. *)
Definition field_le (f : string) (a b : record) : Prop :=
  match numeric_value (field_or_zero f a),
        numeric_value (field_or_zero f b) with
  | Some x, Some y => xleb x y = true
  | _, _ => False
  end.

Definition ascending (f : string) (l : list record) : Prop :=
  StronglySorted (field_le f) l.

Definition descending (f : string) (l : list record) : Prop :=
  StronglySorted (fun a b => field_le f b a) l.

(** The records of a list whose field is worth [v], in list order; the
    records whose field is worth nothing are those of [None]. *)
Definition with_value (f : string) (v : option xval) (l : list record)
  : list record :=
  filter (fun r => match numeric_value (field_or_zero f r), v with
                   | Some x, Some y => xeqb x y
                   | None, None => true
                   | _, _ => false
                   end) l.

(** What [<] accepts: a number with a number, a string with a string, an
    array with an array.  A null and an object go with nothing, not even
    with themselves. *)
Definition comparable (u v : jval) : bool :=
  match u, v with
  | (JBool _ | JInt _ | JFloat _), (JBool _ | JInt _ | JFloat _) => true
  | JStr _, JStr _ => true
  | JArr _, JArr _ => true
  | _, _ => false
  end.

(** A file with a null weight in one record of two. *)
Definition null_weight : store :=
  [("1", [("name", JStr "x"); ("weight", JNull)]);
   ("2", [("name", JStr "y"); ("weight", JInt 70)])].

(** The records of the examples for the arithmetic: 160 cm and 56 kg,
    whose exact quotient 21.875 lies halfway between two hundredths, and
    a height of 2^-600 cm. *)
Definition tie_patient : Patient.t :=
  Patient.Build "P003" "Ann Roe" "Rome" 35 "Female" 160%float 56%float.

Definition tiny_patient : Patient.t :=
  Patient.Build "P004" "Tom Thumb" "Oslo" 35 "Male" 0x1p-600%float 1%float.

(** * Properties *)

(** ** Dictionary laws *)

Module DictFacts.
Import Dict.
Section DictFacts.
Context {V : Type}.
Implicit Types (d : dict V) (k : string) (v : V).

Lemma get_set_same k v d : get k (set k v d) = Some v.
Proof.
  induction d as [|[k' v'] d IH]; simpl.
  - now rewrite String.eqb_refl.
  - destruct (String.eqb k k') eqn:E; simpl; rewrite ?E, ?String.eqb_refl; auto.
Qed.

Lemma get_set_other k k' v d : k' <> k -> get k' (set k v d) = get k' d.
Proof.
  intros Hne. induction d as [|[k0 v0] d IH]; simpl.
  - apply String.eqb_neq in Hne. now rewrite Hne.
  - destruct (String.eqb k k0) eqn:E; simpl.
    + apply String.eqb_eq in E. subst k0.
      apply String.eqb_neq in Hne. now rewrite Hne.
    + now rewrite IH.
Qed.

Lemma get_del_other k k' d : k' <> k -> get k' (del k d) = get k' d.
Proof.
  intros Hne. induction d as [|[k0 v0] d IH]; simpl; auto.
  destruct (String.eqb k k0) eqn:E; simpl.
  - apply String.eqb_eq in E. subst k0.
    apply String.eqb_neq in Hne. now rewrite Hne.
  - now rewrite IH.
Qed.

Lemma get_None_notin k d : get k d = None <-> ~ In k (keys d).
Proof.
  induction d as [|[k0 v0] d IH]; simpl.
  - tauto.
  - destruct (String.eqb k k0) eqn:E.
    + apply String.eqb_eq in E. subst. split; [discriminate | tauto].
    + apply String.eqb_neq in E. rewrite IH. split.
      * intros H [H1 | H1]; [congruence | tauto].
      * tauto.
Qed.

Lemma keys_del_incl k d : incl (keys (del k d)) (keys d).
Proof.
  induction d as [|[k0 v0] d IH]; simpl.
  - apply incl_refl.
  - destruct (String.eqb k k0).
    + apply incl_tl, incl_refl.
    + simpl. intros x [Hx | Hx]; [now left | right; now apply IH].
Qed.

Lemma get_del_same k d : wf d -> get k (del k d) = None.
Proof.
  unfold wf. induction d as [|[k0 v0] d IH]; simpl; intros Hwf; auto.
  inversion Hwf as [|? ? Hnotin Hnd]; subst.
  destruct (String.eqb k k0) eqn:E; simpl.
  - apply String.eqb_eq in E. subst k0. now apply get_None_notin.
  - rewrite E. now apply IH.
Qed.

Lemma keys_set_in k v d : get k d <> None -> keys (set k v d) = keys d.
Proof.
  induction d as [|[k0 v0] d IH]; simpl; intros H.
  - congruence.
  - destruct (String.eqb k k0) eqn:E; simpl.
    + apply String.eqb_eq in E. now subst.
    + now rewrite IH.
Qed.

Lemma keys_set_notin k v d : get k d = None -> keys (set k v d) = (keys d ++ [k])%list.
Proof.
  induction d as [|[k0 v0] d IH]; simpl; intros H; auto.
  destruct (String.eqb k k0) eqn:E; [discriminate|].
  simpl. now rewrite IH.
Qed.

Lemma wf_set k v d : wf d -> wf (set k v d).
Proof.
  unfold wf. intros Hwf. destruct (get k d) eqn:E.
  - rewrite keys_set_in; [assumption | congruence].
  - rewrite keys_set_notin by assumption.
    apply NoDup_app; [assumption | constructor; [tauto | constructor] |].
    intros x Hx [Hk | []]. subst x. now apply get_None_notin in E.
Qed.

Lemma wf_del k d : wf d -> wf (del k d).
Proof.
  unfold wf. induction d as [|[k0 v0] d IH]; simpl; intros Hwf; auto.
  inversion Hwf as [|? ? Hnotin Hnd]; subst.
  destruct (String.eqb k k0); simpl; auto.
  constructor; auto.
  intros Hin. apply Hnotin. now apply (keys_del_incl k d).
Qed.
Lemma mem_true_get k d : mem k d = true <-> exists v, get k d = Some v.
Proof.
  unfold mem. destruct (get k d); split; intros H; eauto; try discriminate.
  destruct H; discriminate.
Qed.

Lemma mem_false_get k d : mem k d = false <-> get k d = None.
Proof.
  unfold mem. destruct (get k d); split; intros H; auto; discriminate.
Qed.
End DictFacts.
End DictFacts.

(** ** Arithmetic *)

Lemma Qltb_lt (x y : Q) : Qltb x y = true <-> x < y.
Proof.
  unfold Qltb. rewrite negb_true_iff. split.
  - intros H. apply Qnot_le_lt. intros Hle.
    apply Qle_bool_iff in Hle. congruence.
  - intros H. destruct (Qle_bool y x) eqn:E; auto.
    apply Qle_bool_iff in E. lra.
Qed.

Lemma Qltb_ge (x y : Q) : Qltb x y = false <-> y <= x.
Proof.
  unfold Qltb. rewrite negb_false_iff. apply Qle_bool_iff.
Qed.

(** The rounded integer is within one half of the argument, and when it is
    exactly one half away it is even. *)
Lemma round_half_even_spec (y : Q) :
  Qabs (y - inject_Z (round_half_even y)) <= 1 # 2 /\
  (Qabs (y - inject_Z (round_half_even y)) == 1 # 2 ->
   Z.even (round_half_even y) = true).
Proof.
  unfold round_half_even.
  pose proof (Qfloor_le y) as Hlo.
  pose proof (Qlt_floor y) as Hhi.
  rewrite inject_Z_plus in Hhi. change (inject_Z 1) with 1 in Hhi.
  set (f := Qfloor y) in *.
  assert (Hs : inject_Z (f + 1) == inject_Z f + 1)
    by (rewrite inject_Z_plus; reflexivity).
  destruct (Qcompare_spec (y - inject_Z f) (1 # 2)) as [He | Hl | Hg].
  - destruct (Z.even f) eqn:Ev.
    + split; [|auto]. rewrite Qabs_pos; lra.
    + rewrite Hs. split.
      * rewrite Qabs_neg; lra.
      * intros _. change (f + 1)%Z with (Z.succ f).
        rewrite Z.even_succ, <- Z.negb_even, Ev. reflexivity.
  - split.
    + rewrite Qabs_pos; lra.
    + rewrite Qabs_pos by lra. lra.
  - rewrite Hs. split.
    + rewrite Qabs_neg; lra.
    + rewrite Qabs_neg by lra. lra.
Qed.

Lemma nearest_hundredth_unique (x r r' : Q) :
  nearest_hundredth x r -> nearest_hundredth x r' -> r == r'.
Proof.
  intros (n & Hr & Hn & Tn) (m & Hr' & Hm & Tm).
  rewrite Hr, Hr'.
  enough (n = m) as -> by reflexivity.
  apply Qabs_Qle_condition in Hn, Hm.
  assert (Hd : inject_Z (n - m) <= 1 /\ -(1) <= inject_Z (n - m)).
  { unfold Zminus. rewrite inject_Z_plus, inject_Z_opp. split; lra. }
  destruct Hd as [Hd1 Hd2].
  change 1 with (inject_Z 1) in Hd1, Hd2.
  change (- inject_Z 1) with (inject_Z (-1)) in Hd2.
  rewrite <- Zle_Qle in Hd1, Hd2.
  assert (Hc : (n = m \/ n = m + 1 \/ m = n + 1)%Z) by lia.
  destruct Hc as [-> | [-> | ->]]; [reflexivity | exfalso | exfalso].
  - rewrite inject_Z_plus in *. change (inject_Z 1) with 1 in *.
    assert (E : x * 100 - inject_Z m == 1 # 2) by lra.
    assert (E' : x * 100 - (inject_Z m + 1) == - (1 # 2)) by lra.
    assert (Z.even m = true) by (apply Tm; rewrite E; reflexivity).
    assert (Z.even (m + 1) = true)
      by (apply Tn; rewrite E'; reflexivity).
    change (m + 1)%Z with (Z.succ m) in *.
    rewrite Z.even_succ, <- Z.negb_even in *. destruct (Z.even m); discriminate.
  - rewrite inject_Z_plus in *. change (inject_Z 1) with 1 in *.
    assert (E : x * 100 - inject_Z n == 1 # 2) by lra.
    assert (E' : x * 100 - (inject_Z n + 1) == - (1 # 2)) by lra.
    assert (Z.even n = true) by (apply Tn; rewrite E; reflexivity).
    assert (Z.even (n + 1) = true)
      by (apply Tm; rewrite E'; reflexivity).
    change (n + 1)%Z with (Z.succ n) in *.
    rewrite Z.even_succ, <- Z.negb_even in *. destruct (Z.even n); discriminate.
Qed.

(** ** The order of doubles *)

Lemma xleb_not_xltb (a b : xval) : xleb a b = true -> xltb b a = false.
Proof.
  destruct a as [|p|], b as [|q|]; simpl; try reflexivity; try discriminate.
  intros H. apply Qle_bool_iff in H. now apply Qltb_ge.
Qed.

Lemma xltb_false_xleb (a b : xval) : xltb a b = false -> xleb b a = true.
Proof.
  destruct a as [|p|], b as [|q|]; simpl; try reflexivity; try discriminate.
  intros H. apply Qltb_ge in H. now apply Qle_bool_iff.
Qed.

Lemma xltb_xleb (a b : xval) : xltb a b = true -> xleb a b = true.
Proof.
  destruct a as [|p|], b as [|q|]; simpl; try reflexivity; try discriminate.
  intros H. apply Qltb_lt in H. apply Qle_bool_iff. lra.
Qed.

Lemma xleb_trans (a b c : xval) :
  xleb a b = true -> xleb b c = true -> xleb a c = true.
Proof.
  destruct a as [|p|], b as [|q|], c as [|r|]; simpl;
    try reflexivity; try discriminate.
  intros H1 H2. apply Qle_bool_iff in H1, H2. apply Qle_bool_iff. lra.
Qed.

Lemma xleb_xltb_trans (a b c : xval) :
  xleb a b = true -> xltb b c = true -> xltb a c = true.
Proof.
  destruct a as [|p|], b as [|q|], c as [|r|]; simpl;
    try reflexivity; try discriminate.
  intros H1 H2. apply Qle_bool_iff in H1. apply Qltb_lt in H2.
  apply Qltb_lt. lra.
Qed.

Lemma xeqb_refl (a : xval) : xeqb a a = true.
Proof. destruct a; simpl; auto. apply Qeq_bool_refl. Qed.

Lemma xeqb_xleb (a b : xval) :
  xeqb a b = true <-> xleb a b = true /\ xleb b a = true.
Proof.
  destruct a as [|p|], b as [|q|]; simpl; split;
    try (intros [? ?]); try discriminate; auto.
  - intros H. apply Qeq_bool_eq in H. split; apply Qle_bool_iff; lra.
  - apply Qle_bool_iff in H, H0. apply Qeq_eq_bool. lra.
Qed.

Lemma xeqb_trans (a b c : xval) :
  xeqb a b = true -> xeqb b c = true -> xeqb a c = true.
Proof.
  rewrite !xeqb_xleb. intros [H1 H2] [H3 H4].
  split; eapply xleb_trans; eassumption.
Qed.

Lemma xeqb_sym (a b : xval) : xeqb a b = xeqb b a.
Proof.
  destruct (xeqb a b) eqn:E1, (xeqb b a) eqn:E2; auto.
  - apply xeqb_xleb in E1. destruct E1.
    assert (xeqb b a = true) by (apply xeqb_xleb; auto). congruence.
  - apply xeqb_xleb in E2. destruct E2.
    assert (xeqb a b = true) by (apply xeqb_xleb; auto). congruence.
Qed.

Lemma fle_not_flt (x y : float) : fle x y = true -> flt y x = false.
Proof.
  unfold fle, flt. destruct (value x), (value y); try discriminate.
  apply xleb_not_xltb.
Qed.

Lemma fle_flt_trans (x y z : float) :
  fle x y = true -> flt y z = true -> flt x z = true.
Proof.
  unfold fle, flt. destruct (value x), (value y), (value z);
    try discriminate. apply xleb_xltb_trans.
Qed.

(** ** The record model *)

#[local] Existing Instance reference.

Section RecordModel.
Context {platform : Platform}.

(** Rounding a double to two decimals: the nearest whole number of
    hundredths of its exact value, read back as a double. *)
Lemma py_round_2_value (x : float) (q : Q) :
  value x = Some (Fin q) ->
  exists n : Z,
    nearest_hundredth q (inject_Z n / 100) /\
    value (py_round x 2) = value (float_of_ratio n 100).
Proof.
  intros Hv. exists (round_half_even (q * 100)). split.
  - exists (round_half_even (q * 100)). split; [reflexivity|].
    apply round_half_even_spec.
  - unfold py_round. rewrite Hv.
    change (inject_Z (10 ^ Z.of_nat 2)) with 100.
    change (Z.to_pos (10 ^ Z.of_nat 2)) with 100%positive.
    destruct (round_half_even (q * 100)); try reflexivity.
    destruct (sign_bit x); reflexivity.
Qed.

Lemma py_round_not_finite (x : float) (n : nat) :
  (forall q, value x <> Some (Fin q)) -> py_round x n = x.
Proof.
  intros Hv. unfold py_round. destruct (value x) as [[|q|]|]; auto.
  now elim (Hv q).
Qed.

Lemma py_pow_two_raises (x : float) (e : exn) :
  py_pow_two x = Raise e -> e = OverflowError.
Proof.
  unfold py_pow_two. destruct (Prim2SF x); try discriminate.
  destruct (PrimFloat.eqb _ _); [discriminate|].
  destruct (is_infinite _); [|discriminate].
  intros E. now inversion E.
Qed.

(** C1, as the code has it. The bmi of a record is
    [round(weight / (height/100) ** 2, 2)] in double arithmetic, and that
    decides whether there is one.  With [s] the double square of the
    double [height/100]: if the square overflows, reading the bmi raises
    [OverflowError]; if [s] is zero, it raises [ZeroDivisionError]; in
    every other case the bmi is the double quotient [weight / s] rounded
    to two decimals, that is the double nearest to the hundredth nearest
    to the exact value of that quotient (ties to even), a quotient that
    is infinite or a NaN being the bmi as it is.  This holds for every
    record, those with height > 0 and weight > 0 among them. *)
Theorem bmi_is_rounded_double_quotient (p : Patient.t) :
  let h := PrimFloat.div (Patient.height p) 100%float in
  (forall e, py_pow_two h = Raise e ->
     e = OverflowError /\ Patient.bmi p = Raise OverflowError) /\
  (forall s, py_pow_two h = Ok s ->
     let q := PrimFloat.div (Patient.weight p) s in
     (is_zero s = true -> Patient.bmi p = Raise ZeroDivisionError) /\
     (is_zero s = false ->
        Patient.bmi p = Ok (py_round q 2) /\
        (forall x, value q = Some (Fin x) ->
           exists n : Z,
             nearest_hundredth x (inject_Z n / 100) /\
             value (py_round q 2) = value (float_of_ratio n 100)) /\
        ((forall x, value q <> Some (Fin x)) -> py_round q 2 = q))).
Proof.
  intros h. unfold Patient.bmi, py_div.
  change (is_zero 100%float) with false. cbn [rbind]. fold h. split.
  - intros e He. pose proof (py_pow_two_raises _ _ He) as ->.
    now rewrite He.
  - intros s Hs. rewrite Hs. cbn [rbind]. split.
    + intros ->. reflexivity.
    + intros ->. cbn [rbind]. split; [reflexivity|]. split.
      * intros x Hx. now apply py_round_2_value.
      * intros Hn. now apply py_round_not_finite.
Qed.

(** C2. The verdict follows the threshold table on the bmi the record
    has: Underweight below 18.5, Healthy on [18.5, 24.9), Overweight on
    [25, 29.9), Obese in every other case, in particular on the gap
    [24.9, 25).  There is a verdict exactly when there is a bmi: a bmi
    that raises makes the verdict raise the same.  This holds for every
    record, those with height > 0 and weight > 0 among them. *)
Theorem verdict_follows_thresholds (p : Patient.t) :
  (forall e, Patient.bmi p = Raise e -> Patient.verdict p = Raise e) /\
  (forall b, Patient.bmi p = Ok b ->
     exists v,
       Patient.verdict p = Ok v /\
       (flt b 18.5%float = true -> v = "Underweight") /\
       (fle 18.5%float b = true /\ flt b 24.9%float = true ->
        v = "Healthy") /\
       (fle 25%float b = true /\ flt b 29.9%float = true ->
        v = "Overweight") /\
       (flt b 18.5%float = false ->
        ~ (fle 18.5%float b = true /\ flt b 24.9%float = true) ->
        ~ (fle 25%float b = true /\ flt b 29.9%float = true) ->
        v = "Obese") /\
       (fle 24.9%float b = true /\ flt b 25%float = true -> v = "Obese")).
Proof.
  split.
  { intros e He. unfold Patient.verdict. now rewrite He. }
  intros b Hb. unfold Patient.verdict. rewrite Hb. cbn [rbind].
  assert (L1 : fle 18.5%float b = true -> flt b 18.5%float = false)
    by apply fle_not_flt.
  assert (L2 : fle 25%float b = true -> flt b 18.5%float = false).
  { intros H1. destruct (flt b 18.5%float) eqn:E; [|reflexivity].
    pose proof (fle_flt_trans _ _ _ H1 E) as C. vm_compute in C.
    discriminate C. }
  assert (L3 : fle 25%float b = true -> flt b 24.9%float = false).
  { intros H1. destruct (flt b 24.9%float) eqn:E; [|reflexivity].
    pose proof (fle_flt_trans _ _ _ H1 E) as C. vm_compute in C.
    discriminate C. }
  assert (L4 : fle 24.9%float b = true -> flt b 18.5%float = false).
  { intros H1. destruct (flt b 18.5%float) eqn:E; [|reflexivity].
    pose proof (fle_flt_trans _ _ _ H1 E) as C. vm_compute in C.
    discriminate C. }
  assert (L5 : fle 24.9%float b = true -> flt b 24.9%float = false)
    by apply fle_not_flt.
  assert (L6 : flt b 25%float = true -> fle 25%float b = false).
  { intros H1. destruct (fle 25%float b) eqn:E; [|reflexivity].
    apply fle_not_flt in E. congruence. }
  destruct (flt b 18.5%float) eqn:E1.
  { eexists. split; [reflexivity|].
    repeat split; intros; try reflexivity; exfalso;
      intuition congruence. }
  destruct (fle 18.5%float b && flt b 24.9%float) eqn:E2.
  { apply andb_true_iff in E2. destruct E2 as [E2 E3].
    eexists. split; [reflexivity|].
    repeat split; intros; try reflexivity; exfalso;
      intuition congruence. }
  destruct (fle 25%float b && flt b 29.9%float) eqn:E3.
  { apply andb_true_iff in E3. destruct E3 as [E3 E4].
    eexists. split; [reflexivity|].
    repeat split; intros; try reflexivity; exfalso;
      intuition congruence. }
  eexists. split; [reflexivity|].
  apply andb_false_iff in E2, E3.
  repeat split; intros; try reflexivity; exfalso; intuition congruence.
Qed.
End RecordModel.

Lemma bmi_is_rounded_double_quotient_witness :
  py_pow_two (PrimFloat.div (Patient.height john) 100%float) =
    Ok 0x1.9eb851eb851ecp+1%float /\
  is_zero 0x1.9eb851eb851ecp+1%float = false /\
  Patient.bmi john =
    Ok (py_round (PrimFloat.div (Patient.weight john)
                    0x1.9eb851eb851ecp+1%float) 2) /\
  py_round (PrimFloat.div (Patient.weight john)
              0x1.9eb851eb851ecp+1%float) 2 = 23.15%float.
Proof.
  assert (Hs : py_pow_two (PrimFloat.div (Patient.height john) 100%float) =
               Ok 0x1.9eb851eb851ecp+1%float) by reflexivity.
  assert (Hz : is_zero 0x1.9eb851eb851ecp+1%float = false) by reflexivity.
  split; [exact Hs|]. split; [exact Hz|]. split; [|reflexivity].
  exact (proj1 (proj2 (proj2 (bmi_is_rounded_double_quotient john) _ Hs) Hz)).
Defined.

(** C1, as the spec words it, fails twice.  At 160 cm and 56 kg the exact
    quotient is 21.875 and rounds to 21.88, while the doubles give 21.87;
    and at a height of 2^-600 cm, which is greater than 0, the square
    underflows to 0.0 and there is no bmi at all. *)
Lemma bmi_is_not_the_exact_rounding :
  flt 0%float (Patient.height tie_patient) = true /\
  flt 0%float (Patient.weight tie_patient) = true /\
  (exists h, value (Patient.height tie_patient) = Some (Fin h) /\ h == 160) /\
  (exists w, value (Patient.weight tie_patient) = Some (Fin w) /\ w == 56) /\
  nearest_hundredth (56 / (160 / 100) ^ 2) (2188 # 100) /\
  Patient.bmi tie_patient = Ok (float_of_ratio 2187 100) /\
  float_of_ratio 2187 100 <> float_of_ratio 2188 100 /\
  flt 0%float (Patient.height tiny_patient) = true /\
  flt 0%float (Patient.weight tiny_patient) = true /\
  Patient.bmi tiny_patient = Raise ZeroDivisionError.
Proof.
  split; [reflexivity|]. split; [reflexivity|].
  split; [eexists; split; [reflexivity | vm_compute; reflexivity]|].
  split; [eexists; split; [reflexivity | vm_compute; reflexivity]|].
  split.
  { exists 2188%Z. split; [vm_compute; reflexivity|]. split.
    - vm_compute. discriminate.
    - intros _. reflexivity. }
  split; [reflexivity|]. split.
  { intros E. apply (f_equal value) in E. vm_compute in E. discriminate E. }
  split; [reflexivity|]. split; reflexivity.
Qed.

Example bmi_john : Patient.bmi john = Ok 23.15%float.
Proof. reflexivity. Qed.

Lemma verdict_follows_thresholds_witness :
  Patient.bmi john = Ok 23.15%float /\
  exists v,
    Patient.verdict john = Ok v /\
    (flt 23.15%float 18.5%float = true -> v = "Underweight") /\
    (fle 18.5%float 23.15%float = true /\ flt 23.15%float 24.9%float = true ->
     v = "Healthy") /\
    (fle 25%float 23.15%float = true /\ flt 23.15%float 29.9%float = true ->
     v = "Overweight") /\
    (flt 23.15%float 18.5%float = false ->
     ~ (fle 18.5%float 23.15%float = true /\
        flt 23.15%float 24.9%float = true) ->
     ~ (fle 25%float 23.15%float = true /\
        flt 23.15%float 29.9%float = true) ->
     v = "Obese") /\
    (fle 24.9%float 23.15%float = true /\ flt 23.15%float 25%float = true ->
     v = "Obese").
Proof.
  assert (Hb : Patient.bmi john = Ok 23.15%float) by reflexivity.
  split; [exact Hb|].
  exact (proj2 (verdict_follows_thresholds john) 23.15%float Hb).
Defined.

(** A bmi inside the gap: height 100 cm and weight 24.95 kg.  And a bmi
    that is a NaN, from an infinite height and weight, is Obese too. *)
Example verdict_in_gap :
  let p := Patient.Build "P002" "Jane Doe" "Boston" 41 "Female"
             100%float 24.95%float in
  let r := Patient.Build "P005" "Max Roe" "Bonn" 41 "Male"
             PrimFloat.infinity PrimFloat.infinity in
  Patient.bmi p = Ok 24.95%float /\ Patient.verdict p = Ok "Obese" /\
  Patient.bmi r = Ok PrimFloat.nan /\ Patient.verdict r = Ok "Obese".
Proof. repeat split; reflexivity. Qed.

(** ** Membership tests *)

Lemma mem_true_In {V : Type} (k : string) (d : Dict.dict V) :
  Dict.mem k d = true <-> In k (Dict.keys d).
Proof.
  unfold Dict.mem. pose proof (DictFacts.get_None_notin k d) as H.
  destruct (Dict.get k d) eqn:E.
  - split; [intros _ | reflexivity].
    destruct (in_dec string_dec k (Dict.keys d)) as [Hin | Hnin]; auto.
    apply H in Hnin. discriminate.
  - split; [discriminate|]. intros Hin. exfalso. now apply H.
Qed.

Lemma str_in_In (x : string) (l : list string) : str_in x l = true <-> In x l.
Proof.
  unfold str_in. rewrite existsb_exists. split.
  - intros (y & Hy & E). apply String.eqb_eq in E. now subst.
  - intros H. exists x. split; [assumption | apply String.eqb_refl].
Qed.

(** ** Running a handler *)

Create HintDb handler discriminated.
#[local] Hint Unfold serve bind ret lift load_data save_data : handler.

Ltac run_handler := autounfold with handler.

(** ** Refused requests leave the file alone *)

Section CreateRefused.
Context {platform : Platform}.

(** C5. Creating a patient whose identifier is already a key of the file
    writes nothing, the file is exactly as before; but the conflict is not
    signalled: the 400 [HTTPException] object is returned as an ordinary
    value, and what goes out is a 200. *)
Theorem create_existing_returns_exception (patient : Patient.t) (s : store) :
  In (Patient.id patient) (Dict.keys s) ->
  create_patient patient s =
  (Ok (HTTPException 400 "Patient with this ID already exists"), s) /\
  serve (create_patient patient) s = (200%Z, s).
Proof.
  intros Hin. apply mem_true_In in Hin.
  unfold create_patient. run_handler. now rewrite Hin.
Qed.
End CreateRefused.

Lemma create_existing_returns_exception_witness :
  In (Patient.id john) (Dict.keys two_patients) /\
  create_patient john two_patients =
  (Ok (HTTPException 400 "Patient with this ID already exists"),
   two_patients) /\
  serve (create_patient john) two_patients = (200%Z, two_patients).
Proof.
  assert (Hin : In (Patient.id john) (Dict.keys two_patients))
    by (simpl; auto).
  split; [exact Hin|].
  exact (create_existing_returns_exception john two_patients Hin).
Defined.

Section UpdateRefused.
Context {platform : Platform}.
Variable str_as_int : string -> option Z.
Variable str_as_float : string -> option float.

(** C6. Updating an identifier that is no key of the file answers with a
    404 response ("Patient not found") and writes nothing: the file is
    exactly as before. *)
Theorem update_missing_is_not_found (patient_id : string)
    (patient_update : PatientUpdate.t) (s : store) :
  ~ In patient_id (Dict.keys s) ->
  update_patient str_as_int str_as_float patient_id patient_update s =
  (Ok (JSONResponse 404 (Message "Patient not found")), s) /\
  serve (update_patient str_as_int str_as_float patient_id patient_update) s =
  (404%Z, s).
Proof.
  intros Hnin. apply DictFacts.get_None_notin in Hnin.
  unfold update_patient. run_handler. now rewrite Hnin.
Qed.
End UpdateRefused.

Lemma update_missing_is_not_found_witness :
  ~ In "P404" (Dict.keys two_patients) /\
  update_patient no_str_as_int no_str_as_float "P404"
    (PatientUpdate.Build None None (Some (Some 31%Z)) None None None)
    two_patients =
  (Ok (JSONResponse 404 (Message "Patient not found")), two_patients) /\
  serve (update_patient no_str_as_int no_str_as_float "P404"
           (PatientUpdate.Build None None (Some (Some 31%Z)) None None None))
    two_patients = (404%Z, two_patients).
Proof.
  assert (Hnin : ~ In "P404" (Dict.keys two_patients)).
  { simpl. intros [H | [H | []]]; discriminate. }
  split; [exact Hnin|].
  exact (update_missing_is_not_found no_str_as_int no_str_as_float "P404"
           _ two_patients Hnin).
Defined.

Section SortRefused.
Context {platform : Platform}.

(** C8. A sort request whose [sort_by] is not one of height, weight, bmi,
    or whose [order] is not one of asc, desc, leaves the file untouched;
    but the bad query is not signalled: a 400 [HTTPException] object is
    returned as an ordinary value, and what goes out is a 200. *)
Theorem sort_invalid_returns_exception (sort_by order : string) (s : store) :
  ~ In sort_by valid_fields \/ ~ In order valid_orders ->
  (exists detail,
     sort_patients sort_by order s = (Ok (HTTPException 400 detail), s)) /\
  serve (sort_patients sort_by order) s = (200%Z, s).
Proof.
  intros H. unfold serve, sort_patients.
  destruct (str_in sort_by valid_fields) eqn:E1; cbn [negb].
  - destruct (str_in order valid_orders) eqn:E2; cbn [negb].
    + apply str_in_In in E1, E2. tauto.
    + split; [eexists|]; reflexivity.
  - split; [eexists|]; reflexivity.
Qed.
End SortRefused.

Lemma sort_invalid_returns_exception_witness :
  (~ In "name" valid_fields \/ ~ In "asc" valid_orders) /\
  (exists detail,
     sort_patients "name" "asc" two_patients =
     (Ok (HTTPException 400 detail), two_patients)) /\
  serve (sort_patients "name" "asc") two_patients = (200%Z, two_patients).
Proof.
  assert (H : ~ In "name" valid_fields \/ ~ In "asc" valid_orders).
  { left. simpl. intros [H | [H | [H | []]]]; discriminate. }
  split; [exact H|].
  exact (sort_invalid_returns_exception "name" "asc" two_patients H).
Defined.

(** ** Delete, then look up *)

(** C9. Deleting an identifier that is a key of the file succeeds, and
    viewing the same identifier on the file it leaves behind finds no
    record: the handler takes its not-found branch and returns the 404
    "Patient not found" object. *)
Theorem delete_then_view_not_found (patient_id : string) (s : store) :
  Dict.wf s ->
  In patient_id (Dict.keys s) ->
  exists s',
    delete_patient patient_id s =
    (Ok (JSONResponse 200 (Message "Patient deleted successfully")), s') /\
    view_patient patient_id s' =
    (Ok (HTTPException 404 "Patient not found"), s').
Proof.
  intros Hwf Hin. apply mem_true_In in Hin.
  exists (Dict.del patient_id s). split.
  - unfold delete_patient. run_handler. now rewrite Hin.
  - unfold view_patient. run_handler.
    now rewrite DictFacts.get_del_same.
Qed.

Lemma delete_then_view_not_found_witness :
  Dict.wf two_patients /\ In "P001" (Dict.keys two_patients) /\
  exists s',
    delete_patient "P001" two_patients =
    (Ok (JSONResponse 200 (Message "Patient deleted successfully")), s') /\
    view_patient "P001" s' =
    (Ok (HTTPException 404 "Patient not found"), s').
Proof.
  assert (Hwf : Dict.wf two_patients).
  { unfold Dict.wf. simpl. repeat constructor; simpl; intuition discriminate. }
  assert (Hin : In "P001" (Dict.keys two_patients)) by (simpl; auto).
  split; [exact Hwf|]. split; [exact Hin|].
  exact (delete_then_view_not_found "P001" two_patients Hwf Hin).
Defined.

(** ** What the writing handlers do to the file *)

Section WriteFacts.
Context {platform : Platform}.

Lemma model_dump_inv (p : Patient.t) (rec : record) :
  Patient.model_dump_exclude_id p = Ok rec ->
  exists b v,
    Patient.bmi p = Ok b /\ Patient.verdict p = Ok v /\
    rec = [("name", JStr (Patient.name p));
           ("city", JStr (Patient.city p));
           ("age", JInt (Patient.age p));
           ("gender", JStr (Patient.gender p));
           ("height", JFloat (Patient.height p));
           ("weight", JFloat (Patient.weight p));
           ("bmi", JFloat b);
           ("verdict", JStr v)].
Proof.
  unfold Patient.model_dump_exclude_id. intros H.
  destruct (Patient.bmi p) as [b|] eqn:Eb; [|discriminate].
  destruct (Patient.verdict p) as [v|] eqn:Ev; [|discriminate].
  simpl in H. inversion H. exists b, v. auto.
Qed.

Lemma verdict_defined (p : Patient.t) (b : float) :
  Patient.bmi p = Ok b -> exists v, Patient.verdict p = Ok v.
Proof.
  intros Hb. unfold Patient.verdict. rewrite Hb. simpl.
  destruct (flt b 18.5%float); [eauto|].
  destruct (fle 18.5%float b && flt b 24.9%float); [eauto|].
  destruct (fle 25%float b && flt b 29.9%float); eauto.
Qed.

(** The dump raises only where the bmi does. *)
Lemma model_dump_of_bmi (p : Patient.t) (b : float) :
  Patient.bmi p = Ok b ->
  exists rec, Patient.model_dump_exclude_id p = Ok rec.
Proof.
  intros Hb. destruct (verdict_defined p _ Hb) as [v Hv].
  unfold Patient.model_dump_exclude_id. rewrite Hb, Hv. simpl. eauto.
Qed.

Lemma create_success_inv (patient : Patient.t) (s s' : store) (r : response) :
  create_patient patient s = (Ok r, s') ->
  is_success r = true ->
  Dict.get (Patient.id patient) s = None /\
  exists rec,
    Patient.model_dump_exclude_id patient = Ok rec /\
    s' = Dict.set (Patient.id patient) rec s.
Proof.
  unfold create_patient. run_handler.
  destruct (Dict.mem (Patient.id patient) s) eqn:Em.
  - intros H. inversion H. subst. discriminate.
  - apply DictFacts.mem_false_get in Em.
    destruct (Patient.model_dump_exclude_id patient) as [rec|] eqn:Ed;
      intros H; inversion H. eauto.
Qed.

Lemma delete_success_inv (patient_id : string) (s s' : store) (r : response) :
  delete_patient patient_id s = (Ok r, s') ->
  is_success r = true ->
  s' = Dict.del patient_id s.
Proof.
  unfold delete_patient. run_handler.
  destruct (Dict.mem patient_id s); simpl; intros H; inversion H; subst.
  - reflexivity.
  - discriminate.
Qed.
End WriteFacts.

Section UpdateFacts.
Context {platform : Platform}.
Variable str_as_int : string -> option Z.
Variable str_as_float : string -> option float.

Lemma update_success_inv (patient_id : string) (u : PatientUpdate.t)
    (s s' : store) (r : response) :
  update_patient str_as_int str_as_float patient_id u s = (Ok r, s') ->
  is_success r = true ->
  exists old p rec,
    Dict.get patient_id s = Some old /\
    Patient.validate str_as_int str_as_float
      (Dict.set "id" (JStr patient_id)
         (merge old (PatientUpdate.model_dump_exclude_unset u))) = Ok p /\
    Patient.model_dump_exclude_id p = Ok rec /\
    s' = Dict.set patient_id rec s.
Proof.
  unfold update_patient. run_handler.
  destruct (Dict.get patient_id s) as [old|] eqn:Eg.
  - destruct (Patient.validate _ _ _) as [p|] eqn:Ev; [|discriminate].
    destruct (Patient.model_dump_exclude_id p) as [rec|] eqn:Ed;
      intros H; inversion H. intros _. exists old, p, rec. auto.
  - intros H. inversion H. subst. discriminate.
Qed.

(** Whatever the outcome, a writing handler leaves the file as it was,
    or with one entry set, or with one entry deleted. *)
Lemma run_state (op : operation) (s s' : store) (r : result response) :
  run str_as_int str_as_float op s = (r, s') ->
  s' = s \/
  (exists rec, s' = Dict.set (target op) rec s) \/
  s' = Dict.del (target op) s.
Proof.
  destruct op as [p | pid u | pid]; simpl.
  - unfold create_patient. run_handler.
    destruct (Dict.mem (Patient.id p) s);
      [intros H; inversion H; auto|].
    destruct (Patient.model_dump_exclude_id p) as [rec|];
      intros H; inversion H; eauto.
  - unfold update_patient. run_handler.
    destruct (Dict.get pid s) as [old|]; [|intros H; inversion H; auto].
    destruct (Patient.validate _ _ _) as [p|]; [|intros H; inversion H; auto].
    destruct (Patient.model_dump_exclude_id p) as [rec|];
      intros H; inversion H; eauto.
  - unfold delete_patient. run_handler.
    destruct (Dict.mem pid s); simpl; intros H; inversion H; auto.
Qed.

(** X7. Distinct keys are an invariant of the file under every writing
    handler: whatever a create, update or delete answers, a file without
    a repeated identifier is left without one. *)
Lemma run_preserves_wf (op : operation) (s s' : store) (r : result response) :
  Dict.wf s ->
  run str_as_int str_as_float op s = (r, s') ->
  Dict.wf s'.
Proof.
  intros Hwf Hrun.
  destruct (run_state _ _ _ _ Hrun) as [-> | [[rec ->] | ->]].
  - assumption.
  - now apply DictFacts.wf_set.
  - now apply DictFacts.wf_del.
Qed.

(** C10. A create, update or delete that succeeds on identifier [k]
    leaves the stored entry of every other identifier exactly as it was. *)
Theorem write_keeps_other_entries (op : operation) (s s' : store)
    (r : response) (k' : string) :
  run str_as_int str_as_float op s = (Ok r, s') ->
  is_success r = true ->
  k' <> target op ->
  Dict.get k' s' = Dict.get k' s.
Proof.
  intros Hrun Hok Hne. destruct op as [p | pid u | pid]; simpl in *.
  - destruct (create_success_inv _ _ _ _ Hrun Hok) as (_ & rec & _ & ->).
    now apply DictFacts.get_set_other.
  - destruct (update_success_inv _ _ _ _ _ Hrun Hok)
      as (old & p & rec & _ & _ & _ & ->).
    now apply DictFacts.get_set_other.
  - rewrite (delete_success_inv _ _ _ _ Hrun Hok).
    now apply DictFacts.get_del_other.
Qed.

(** C3, as the code has it. The value that a successful create or update
    stores under the identifier has exactly the keys name, city, age,
    gender, height, weight, bmi, verdict: the identifier is left out, and
    the derived bmi and verdict are stored, computed from the height and
    weight stored beside them. *)
Theorem written_record_fields (op : operation) (s s' : store) (r : response) :
  writes_record op = true ->
  run str_as_int str_as_float op s = (Ok r, s') ->
  is_success r = true ->
  exists rec h w b v,
    Dict.get (target op) s' = Some rec /\
    Dict.keys rec = dumped_fields /\
    ~ In "id" (Dict.keys rec) /\
    Dict.get "height" rec = Some (JFloat h) /\
    Dict.get "weight" rec = Some (JFloat w) /\
    Dict.get "bmi" rec = Some (JFloat b) /\
    Dict.get "verdict" rec = Some (JStr v) /\
    (exists q : Patient.t,
       Patient.height q = h /\ Patient.weight q = w /\
       Patient.bmi q = Ok b /\ Patient.verdict q = Ok v).
Proof.
  intros Hw Hrun Hok.
  assert (Hdump : exists p rec,
            Patient.model_dump_exclude_id p = Ok rec /\
            Dict.get (target op) s' = Some rec).
  { destruct op as [p | pid u | pid]; simpl in *.
    - destruct (create_success_inv _ _ _ _ Hrun Hok) as (_ & rec & Hd & ->).
      exists p, rec. split; [assumption | apply DictFacts.get_set_same].
    - destruct (update_success_inv _ _ _ _ _ Hrun Hok)
        as (old & p & rec & _ & _ & Hd & ->).
      exists p, rec. split; [assumption | apply DictFacts.get_set_same].
    - discriminate. }
  destruct Hdump as (p & rec & Hd & Hget).
  destruct (model_dump_inv _ _ Hd) as (b & v & Hb & Hv & ->).
  eexists. exists (Patient.height p), (Patient.weight p), b, v.
  split; [exact Hget|]. split; [reflexivity|].
  split; [simpl; intuition discriminate|].
  repeat (split; [reflexivity|]).
  exists p. auto.
Qed.
End UpdateFacts.

Lemma write_keeps_other_entries_witness :
  run no_str_as_int no_str_as_float (Delete "P001") two_patients =
  (Ok (JSONResponse 200 (Message "Patient deleted successfully")),
   Dict.del "P001" two_patients) /\
  Dict.get "P002" (Dict.del "P001" two_patients) =
  Dict.get "P002" two_patients.
Proof.
  assert (Hrun : run no_str_as_int no_str_as_float (Delete "P001") two_patients =
                 (Ok (JSONResponse 200 (Message "Patient deleted successfully")),
                  Dict.del "P001" two_patients)) by reflexivity.
  split; [exact Hrun|].
  refine (write_keeps_other_entries no_str_as_int no_str_as_float
            (Delete "P001") two_patients _ _ "P002" Hrun _ _).
  - reflexivity.
  - simpl. discriminate.
Defined.

Lemma written_record_fields_witness :
  exists rec h w b v,
    Dict.get "P001" (snd (create_patient john [])) = Some rec /\
    Dict.keys rec = dumped_fields /\
    ~ In "id" (Dict.keys rec) /\
    Dict.get "height" rec = Some (JFloat h) /\
    Dict.get "weight" rec = Some (JFloat w) /\
    Dict.get "bmi" rec = Some (JFloat b) /\
    Dict.get "verdict" rec = Some (JStr v) /\
    (exists q : Patient.t,
       Patient.height q = h /\ Patient.weight q = w /\
       Patient.bmi q = Ok b /\ Patient.verdict q = Ok v).
Proof.
  refine (written_record_fields no_str_as_int no_str_as_float
            (Create john) [] (snd (create_patient john []))
            (JSONResponse 201 (Message "Patient created successfully")) _ _ _);
    reflexivity.
Defined.

(** C3, as the spec words it, fails: the value stored for a fresh patient
    carries bmi and verdict next to the base fields. *)
Lemma create_stores_derived_fields :
  create_patient john [] =
  (Ok (JSONResponse 201 (Message "Patient created successfully")),
   [("P001", john_record)]) /\
  Dict.mem "bmi" john_record = true /\
  Dict.mem "verdict" john_record = true /\
  ~ only_base_fields john_record.
Proof.
  split; [reflexivity|]. split; [reflexivity|]. split; [reflexivity|].
  intros H.
  assert (Hin : In "bmi" base_fields).
  { apply H. unfold john_record, Dict.keys. simpl. auto 10. }
  unfold base_fields in Hin. simpl in Hin.
  repeat (destruct Hin as [Hin | Hin]; [discriminate Hin|]). exact Hin.
Qed.

(** ** Partial update *)

Lemma get_app {V : Type} (f : string) (l1 l2 : Dict.dict V) :
  Dict.get f (l1 ++ l2)%list =
  match Dict.get f l1 with
  | Some v => Some v
  | None => Dict.get f l2
  end.
Proof.
  induction l1 as [|[k v] l1 IH]; simpl; auto.
  destruct (String.eqb f k); auto.
Qed.

Lemma get_entry {A : Type} (f k : string) (inj : A -> jval)
    (o : option (option A)) :
  Dict.get f (PatientUpdate.entry k inj o) =
  if String.eqb f k then option_map (set_to inj) o else None.
Proof.
  destruct o as [[a|]|]; simpl; destruct (String.eqb f k); reflexivity.
Qed.

Lemma keys_app {V : Type} (l1 l2 : Dict.dict V) :
  Dict.keys (l1 ++ l2)%list = (Dict.keys l1 ++ Dict.keys l2)%list.
Proof. apply map_app. Qed.

Lemma keys_entry {A : Type} (k : string) (inj : A -> jval)
    (o : option (option A)) :
  Dict.keys (PatientUpdate.entry k inj o) =
  match o with
  | Some _ => [k]
  | None => []
  end.
Proof. destruct o as [[a|]|]; reflexivity. Qed.

(** The dumped payload holds what the request supplied, field by field. *)
Lemma payload_get (u : PatientUpdate.t) (f : string) :
  Dict.get f (PatientUpdate.model_dump_exclude_unset u) = supplied u f.
Proof.
  unfold PatientUpdate.model_dump_exclude_unset, supplied.
  rewrite !get_app, !get_entry.
  destruct (String.eqb f "name") eqn:E1.
  { apply String.eqb_eq in E1. subst f. simpl.
    now destruct (PatientUpdate.name u). }
  destruct (String.eqb f "city") eqn:E2.
  { apply String.eqb_eq in E2. subst f. simpl.
    now destruct (PatientUpdate.city u). }
  destruct (String.eqb f "age") eqn:E3.
  { apply String.eqb_eq in E3. subst f. simpl.
    now destruct (PatientUpdate.age u). }
  destruct (String.eqb f "gender") eqn:E4.
  { apply String.eqb_eq in E4. subst f. simpl.
    now destruct (PatientUpdate.gender u). }
  destruct (String.eqb f "height") eqn:E5.
  { apply String.eqb_eq in E5. subst f. simpl.
    now destruct (PatientUpdate.height u). }
  reflexivity.
Qed.

Lemma payload_wf (u : PatientUpdate.t) :
  Dict.wf (PatientUpdate.model_dump_exclude_unset u).
Proof.
  unfold Dict.wf, PatientUpdate.model_dump_exclude_unset.
  rewrite !keys_app, !keys_entry.
  destruct (PatientUpdate.name u), (PatientUpdate.city u),
    (PatientUpdate.age u), (PatientUpdate.gender u),
    (PatientUpdate.height u), (PatientUpdate.weight u);
    simpl; repeat constructor; simpl; intuition discriminate.
Qed.

(** The merge loop: a key of the payload gets the payload's value, every
    other key keeps the value it had. *)
Lemma merge_get (old payload : record) (f : string) :
  Dict.wf payload ->
  Dict.get f (merge old payload) =
  match Dict.get f payload with
  | Some v => Some v
  | None => Dict.get f old
  end.
Proof.
  unfold merge, Dict.wf. revert old.
  induction payload as [|[k v] payload IH]; intros old Hwf; simpl; auto.
  inversion Hwf as [|? ? Hnotin Hnd]; subst.
  rewrite IH by assumption.
  destruct (String.eqb f k) eqn:E.
  - apply String.eqb_eq in E. subst f.
    apply DictFacts.get_None_notin in Hnotin. rewrite Hnotin.
    apply DictFacts.get_set_same.
  - apply String.eqb_neq in E.
    rewrite DictFacts.get_set_other by assumption. reflexivity.
Qed.

Section UpdateMerge.
Context {platform : Platform}.
Variable str_as_int : string -> option Z.
Variable str_as_float : string -> option float.

Local Abbreviation validate := (Patient.validate str_as_int str_as_float).



Lemma of_option_raises {A : Type} (o : option A) (e : exn) :
  Patient.of_option o = Raise e -> e = ValidationError.
Proof. destruct o; simpl; intros H; inversion H; reflexivity. Qed.

(** Validation fails in one way only. *)
Lemma validate_raises (kwargs : record) (e : exn) :
  validate kwargs = Raise e -> e = ValidationError.
Proof.
  assert (Hs : forall o e', Patient.validate_str o = Raise e' ->
                            e' = ValidationError).
  { intros [[]|] e'; simpl; intros H; inversion H; reflexivity. }
  assert (Hi : forall o e', Patient.validate_int str_as_int o = Raise e' ->
                            e' = ValidationError).
  { intros [[| | |x| | |]|] e'; simpl; try (intros H; inversion H; reflexivity).
    - destruct (value x) as [[|q|]|];
        try (intros H; inversion H; reflexivity).
      destruct (Qeq_bool q (inject_Z (Qfloor q)));
        intros H; inversion H; reflexivity.
    - apply of_option_raises. }
  assert (Hf : forall o e', Patient.validate_float str_as_float o = Raise e' ->
                            e' = ValidationError).
  { intros [[| | z| | | |]|] e'; simpl; try (intros H; inversion H; reflexivity).
    - destruct (is_infinite (float_of_Z z));
        intros H; inversion H; reflexivity.
    - apply of_option_raises. }
  unfold validate, Patient.validate.
  repeat match goal with
  | |- context [rbind ?r _] =>
      let E := fresh "E" in
      destruct r eqn:E; cbn [rbind];
      [| intros H; inversion H; subst; eauto]
  end.
  match goal with |- context [if ?c then _ else _] => destruct c end;
    intros H; inversion H; reflexivity.
Qed.

End UpdateMerge.


(** The weight is replaced, the other fields stay, whole numbers come back
    as floats and the derived fields are computed afresh. *)
Example update_weight_only :
  update_patient no_str_as_int no_str_as_float "P002" (weight_only 55%float)
    two_patients =
  (Ok (JSONResponse 200 (Message "Patient updated successfully")),
   [("P001", john_record);
    ("P002", [("name", JStr "Jane Doe"); ("city", JStr "Boston");
              ("age", JInt 41); ("gender", JStr "Female");
              ("height", JFloat 160%float); ("weight", JFloat 55%float);
              ("bmi", JFloat 21.48%float); ("verdict", JStr "Healthy")])]).
Proof. reflexivity. Qed.

(** A stored weight that is not positive makes every update of that
    record fail, whatever the payload leaves alone. *)
Example update_revalidates_stored_weight :
  let s := [("P003", [("name", JStr "Max"); ("city", JStr "Oslo");
                      ("age", JInt 50); ("gender", JStr "Male");
                      ("height", JFloat 170%float);
                      ("weight", JFloat (-70)%float)])] in
  update_patient no_str_as_int no_str_as_float "P003"
    (PatientUpdate.Build None (Some (Some "Bergen")) None None None None) s =
  (Raise ValidationError, s).
Proof. reflexivity. Qed.

(** A field the request sets to [null] fails the record model as well. *)
Example update_with_null_is_rejected :
  update_patient no_str_as_int no_str_as_float "P001"
    (PatientUpdate.Build (Some None) None None None None None) two_patients =
  (Raise ValidationError, two_patients).
Proof. reflexivity. Qed.

(** A height that passes validation and whose square underflows: the dump
    raises after the record model has accepted the record, and nothing is
    stored. *)
Example update_dump_raises :
  update_patient no_str_as_int no_str_as_float "P001"
    (PatientUpdate.Build None None None None (Some (Some 0x1p-600%float)) None)
    two_patients =
  (Raise ZeroDivisionError, two_patients).
Proof. reflexivity. Qed.

(** ** The stable sort *)

Section SortedFacts.
Context {platform : Platform} {A : Type}.
Variable key : A -> jval.

Local Abbreviation val := (fun a : A => number (key a)).
Local Abbreviation numeric := (fun a : A => number (key a) <> None).
Local Abbreviation le :=
  (fun a b : A =>
     match number (key a), number (key b) with
     | Some x, Some y => xleb x y = true
     | _, _ => False
     end).
Local Abbreviation bucket :=
  (fun (v : option xval) (a : A) =>
     match number (key a), v with
     | Some x, Some y => xeqb x y
     | None, None => true
     | _, _ => false
     end).

Lemma key_lt_number (u v : jval) (x y : xval) :
  number u = Some x -> number v = Some y -> key_lt u v = xltb x y.
Proof.
  intros Hu Hv. unfold key_lt. rewrite Hu, Hv.
  destruct u; try discriminate; destruct v; try discriminate; reflexivity.
Qed.

(** Insertion puts [x] in front of the first element that is not smaller:
    the result is a rearrangement, stays sorted, and [x] precedes the
    elements of equal value. *)
Lemma insert_numeric (x : A) (l : list A) :
  numeric x -> Forall numeric l ->
  Permutation (x :: l) (insert key x l) /\
  (StronglySorted le l -> StronglySorted le (insert key x l)) /\
  (forall v, filter (bucket v) (insert key x l) = filter (bucket v) (x :: l)).
Proof.
  intros Hx Hl. induction Hl as [|y l Hy Hl IH]; simpl.
  - repeat split; auto. intros _. repeat constructor.
  - destruct (number (key x)) as [vx|] eqn:Ex; [|congruence].
    destruct (number (key y)) as [vy|] eqn:Ey; [|congruence].
    rewrite (key_lt_number _ _ _ _ Ey Ex).
    destruct IH as (Hperm & Hsort & Hstab).
    destruct (xltb vy vx) eqn:E.
    + split; [|split].
      * rewrite perm_swap. now constructor.
      * intros Hs. apply StronglySorted_inv in Hs. destruct Hs as [Hs Hall].
        constructor; [now apply Hsort|].
        eapply Permutation_Forall; [exact Hperm|].
        constructor; [|exact Hall].
        rewrite Ey, Ex. now apply xltb_xleb.
      * intros v. simpl. rewrite Hstab. simpl. rewrite Ex, Ey.
        destruct v as [v|]; [|reflexivity].
        destruct (xeqb vy v) eqn:E1; [|reflexivity].
        destruct (xeqb vx v) eqn:E2; [|reflexivity].
        exfalso. rewrite xeqb_sym in E1.
        pose proof (xeqb_trans _ _ _ E2 E1) as E3.
        apply xeqb_xleb in E3. destruct E3 as [E3 _].
        apply xleb_not_xltb in E3. congruence.
    + apply xltb_false_xleb in E.
      split; [reflexivity|].
      split; [|intros v; simpl; rewrite ?Ex, ?Ey; reflexivity].
      intros Hs. constructor; [assumption|].
      apply StronglySorted_inv in Hs. destruct Hs as [_ Hall].
      constructor; [now rewrite Ex, Ey|].
      eapply Forall_impl; [|exact Hall]. simpl. intros z.
      rewrite Ex, Ey. destruct (number (key z)); [|tauto].
      intros Hz. eapply xleb_trans; eassumption.
Qed.

Lemma sort_stable_numeric (l : list A) :
  Forall numeric l ->
  Permutation l (sort_stable key l) /\
  StronglySorted le (sort_stable key l) /\
  (forall v, filter (bucket v) (sort_stable key l) = filter (bucket v) l).
Proof.
  intros Hl. induction Hl as [|x l Hx Hl IH]; simpl.
  - repeat split; auto. constructor.
  - destruct IH as (Hperm & Hsort & Hstab).
    assert (Hs : Forall numeric (sort_stable key l))
      by (eapply Permutation_Forall; [exact Hperm | exact Hl]).
    destruct (insert_numeric x _ Hx Hs) as (Hp & Ha & Hst).
    split; [|split].
    + rewrite <- Hp. now constructor.
    + now apply Ha.
    + intros v. rewrite Hst. simpl. now rewrite Hstab.
Qed.

Lemma StronglySorted_app (R : A -> A -> Prop) (l1 l2 : list A) :
  StronglySorted R l1 -> StronglySorted R l2 ->
  (forall a b, In a l1 -> In b l2 -> R a b) ->
  StronglySorted R (l1 ++ l2).
Proof.
  intros H1 H2 Hx. induction H1 as [|a l1 H1 IH Hall]; simpl; auto.
  constructor.
  - apply IH. intros x y Hin Hy. apply Hx; simpl; auto.
  - apply Forall_app. split; [assumption|].
    apply Forall_forall. intros y Hy. apply Hx; simpl; auto.
Qed.

Lemma StronglySorted_rev (R : A -> A -> Prop) (l : list A) :
  StronglySorted R l -> StronglySorted (fun a b => R b a) (rev l).
Proof.
  induction 1 as [|a l Hs IH Hall]; simpl.
  - constructor.
  - apply StronglySorted_app; [assumption | repeat constructor |].
    intros x y Hx [<- | []]. apply in_rev in Hx.
    rewrite Forall_forall in Hall. now apply Hall.
Qed.

(** The ordered branch of the builtin: a rearrangement of the argument,
    ascending (descending with [reverse]), and elements of equal value
    keep the order they came in. *)
Lemma sort_ordered_numeric (l : list A) (reverse : bool) :
  Forall numeric l ->
  Permutation l (sort_ordered key l reverse) /\
  (if reverse
   then StronglySorted (fun a b => le b a) (sort_ordered key l reverse)
   else StronglySorted le (sort_ordered key l reverse)) /\
  (forall v, filter (bucket v) (sort_ordered key l reverse) =
             filter (bucket v) l).
Proof.
  intros Hl. unfold sort_ordered. destruct reverse.
  - assert (Hrev : Forall numeric (rev l)).
    { eapply Permutation_Forall; [apply Permutation_rev | exact Hl]. }
    destruct (sort_stable_numeric (rev l) Hrev) as (Hp & Ha & Hst).
    split; [|split].
    + rewrite <- Permutation_rev, <- Hp. apply Permutation_rev.
    + now apply StronglySorted_rev.
    + intros v. rewrite filter_rev, Hst, filter_rev. apply rev_involutive.
  - now apply sort_stable_numeric.
Qed.

Lemma numeric_kind (v : jval) :
  number v <> None -> kind_of v = Some Number /\ nan_key v = false.
Proof.
  destruct v as [| | |x| | |]; simpl; intros H; try congruence; auto.
  split; [reflexivity|]. unfold is_nan. unfold value in H.
  destruct (Prim2SF x); congruence.
Qed.

Lemma common_kind_number (keys : list jval) :
  keys <> [] ->
  Forall (fun v => kind_of v = Some Number) keys ->
  common_kind keys = Some Number.
Proof.
  destruct keys as [|v vs]; [congruence|]. intros _ Hk.
  inversion Hk as [|? ? Hv Hvs]; subst. unfold common_kind. rewrite Hv.
  assert (Hf : forallb (fun w => match kind_of w with
                                 | Some j => kind_eqb j Number
                                 | None => false
                                 end) vs = true).
  { apply forallb_forall. intros w Hw.
    rewrite Forall_forall in Hvs. now rewrite (Hvs w Hw). }
  now rewrite Hf.
Qed.

(** On keys that are numbers and no NaN the builtin takes the ordered
    branch, whatever the platform. *)
Lemma sorted_numeric (l : list A) (reverse : bool) :
  Forall numeric l ->
  sorted key l reverse = Ok (sort_ordered key l reverse).
Proof.
  intros Hl. unfold sorted.
  destruct l as [|a [|b l]].
  - now destruct reverse.
  - now destruct reverse.
  - change (List.length (a :: b :: l) <? 2)%nat with false.
    assert (Hk : Forall (fun v => kind_of v = Some Number /\ nan_key v = false)
                   (map key (a :: b :: l))).
    { apply Forall_map. eapply Forall_impl; [|exact Hl].
      intros x. apply numeric_kind. }
    set (keys := map key (a :: b :: l)) in *.
    assert (Hc : common_kind keys = Some Number).
    { apply common_kind_number; [discriminate|].
      eapply Forall_impl; [|exact Hk]. now intros w [Hw _]. }
    assert (Hn : existsb nan_key keys = false).
    { destruct (existsb nan_key keys) eqn:E; [|reflexivity].
      apply existsb_exists in E. destruct E as (w & Hw & Hnan).
      rewrite Forall_forall in Hk. destruct (Hk w Hw) as [_ Hno].
      congruence. }
    now rewrite Hc, Hn.
Qed.

(** Two ascending lists that agree on the order of the elements of every
    value are the same list: a stable sort has one possible outcome. *)
Lemma stable_ascending_unique (l1 l2 : list A) :
  Forall numeric l1 ->
  StronglySorted le l1 -> StronglySorted le l2 ->
  (forall v, filter (bucket v) l1 = filter (bucket v) l2) ->
  l1 = l2.
Proof.
  intros Hn1 H1. revert l2.
  induction H1 as [|a t1 H1 IH Hall1]; intros l2 H2 Hst.
  - destruct l2 as [|b t2]; [reflexivity|].
    specialize (Hst (number (key b))). simpl in Hst.
    destruct (number (key b)); [rewrite xeqb_refl in Hst|]; discriminate.
  - inversion Hn1 as [|? ? Ha Hn1']; subst.
    destruct (number (key a)) as [va|] eqn:Ea; [|congruence].
    destruct l2 as [|b t2].
    { specialize (Hst (Some va)). simpl in Hst.
      rewrite Ea, xeqb_refl in Hst. discriminate. }
    apply StronglySorted_inv in H2. destruct H2 as [H2 Hall2].
    rewrite Forall_forall in Hall1, Hall2.
    assert (Hb : exists vb, number (key b) = Some vb).
    { destruct (number (key b)) as [vb|] eqn:Eb; [eauto|].
      exfalso. pose proof (Hst None) as Hq. simpl in Hq.
      rewrite Ea, Eb in Hq.
      assert (Hin : In b (filter (bucket None) t1))
        by (rewrite Hq; now left).
      apply filter_In in Hin. destruct Hin as [Hin _].
      apply Hall1 in Hin. simpl in Hin. now rewrite ?Ea, ?Eb in Hin. }
    destruct Hb as [vb Eb].
    assert (Hab : xleb vb va = true).
    { assert (Hin : In a (filter (bucket (Some va)) (b :: t2))).
      { pose proof (Hst (Some va)) as Hq. cbv beta in Hq |- *.
        rewrite <- Hq. simpl. rewrite ?Ea, xeqb_refl. now left. }
      apply filter_In in Hin. destruct Hin as [[<- | Hin] _].
      - rewrite Ea in Eb. inversion Eb. subst.
        apply xeqb_xleb. apply xeqb_refl.
      - apply Hall2 in Hin. simpl in Hin. now rewrite ?Eb, ?Ea in Hin. }
    assert (Hba : xleb va vb = true).
    { assert (Hin : In b (filter (bucket (Some vb)) (a :: t1))).
      { pose proof (Hst (Some vb)) as Hq. cbv beta in Hq |- *.
        rewrite Hq. simpl. rewrite ?Eb, xeqb_refl. now left. }
      apply filter_In in Hin. destruct Hin as [[<- | Hin] _].
      - rewrite Ea in Eb. inversion Eb. subst.
        apply xeqb_xleb. apply xeqb_refl.
      - apply Hall1 in Hin. simpl in Hin. now rewrite ?Ea, ?Eb in Hin. }
    assert (Heq : a = b).
    { pose proof (Hst (Some va)) as Hq. simpl in Hq.
      rewrite Ea, Eb, xeqb_refl in Hq.
      assert (E : xeqb vb va = true) by (apply xeqb_xleb; auto).
      rewrite E in Hq. now inversion Hq. }
    subst b. f_equal. apply IH; [assumption | assumption |].
    intros v. specialize (Hst v). simpl in Hst.
    destruct (bucket v a); [now inversion Hst | assumption].
Qed.
Lemma common_kind_all (keys : list jval) (k : key_kind) :
  common_kind keys = Some k ->
  Forall (fun v => kind_of v = Some k) keys.
Proof.
  destruct keys as [|v vs]; simpl; [discriminate|].
  destruct (kind_of v) as [j|] eqn:Ev; [|discriminate].
  destruct (forallb _ vs) eqn:Ef; [|discriminate].
  intros E. inversion E. subst j. constructor; [exact Ev|].
  apply Forall_forall. intros w Hw.
  rewrite forallb_forall in Ef. specialize (Ef w Hw).
  destruct (kind_of w) as [j|]; [|discriminate].
  now destruct j, k.
Qed.

Lemma same_kind_comparable (u v : jval) (k : key_kind) :
  kind_of u = Some k -> kind_of v = Some k -> comparable u v = true.
Proof. destruct u, v, k; simpl; intros; congruence. Qed.

(** Two or more elements with two keys that [<] does not accept: the
    builtin raises. *)
Lemma sorted_incomparable (l : list A) (reverse : bool) (a b : A) :
  (2 <= List.length l)%nat ->
  In a l -> In b l ->
  comparable (key a) (key b) = false ->
  sorted key l reverse = Raise TypeError.
Proof.
  intros Hlen Ha Hb Hc. unfold sorted.
  apply Nat.ltb_ge in Hlen. rewrite Hlen.
  destruct (common_kind (map key l)) as [k|] eqn:E; [|reflexivity].
  exfalso. apply common_kind_all in E. rewrite Forall_map in E.
  rewrite Forall_forall in E.
  rewrite (same_kind_comparable _ _ k (E a Ha) (E b Hb)) in Hc.
  discriminate.
Qed.
End SortedFacts.

(** ** Sorting the file *)

Lemma get_as_find {V : Type} (k : string) (d : Dict.dict V) :
  Dict.get k d = option_map snd (find (fun kv => String.eqb (fst kv) k) d).
Proof.
  induction d as [|[k0 v0] d IH]; simpl; [reflexivity|].
  rewrite (String.eqb_sym k0 k). now destruct (String.eqb k k0).
Qed.

(** The key the handler sorts by is the stored field, 0 where the record
    has no such field. *)
Lemma sort_key_is_field (sort_by : string) (r : record) :
  sort_key sort_by r = field_or_zero sort_by r.
Proof.
  unfold sort_key, field_or_zero, stored_field. now rewrite get_as_find.
Qed.

Lemma number_is_numeric_value (v : jval) : number v = numeric_value v.
Proof. destruct v as [|[|]| | | | |]; reflexivity. Qed.

Lemma StronglySorted_impl {A : Type} (R S : A -> A -> Prop) (l : list A) :
  (forall a b, R a b -> S a b) -> StronglySorted R l -> StronglySorted S l.
Proof.
  intros HRS. induction 1 as [|a l Hs IH Hall]; constructor; auto.
  eapply Forall_impl; [|exact Hall]. auto.
Qed.

Lemma le_is_field_le (sort_by : string) (a b : record) :
  match number (sort_key sort_by a), number (sort_key sort_by b) with
  | Some x, Some y => xleb x y = true
  | _, _ => False
  end <-> field_le sort_by a b.
Proof.
  unfold field_le.
  now rewrite !sort_key_is_field, !number_is_numeric_value.
Qed.

Lemma bucket_is_with_value (sort_by : string) (v : option xval)
    (l : list record) :
  filter (fun a => match number (sort_key sort_by a), v with
                   | Some x, Some y => xeqb x y
                   | None, None => true
                   | _, _ => false
                   end) l = with_value sort_by v l.
Proof.
  unfold with_value. apply filter_ext. intros a.
  now rewrite sort_key_is_field, number_is_numeric_value.
Qed.

Lemma has_number_numeric (sort_by : string) (l : list record) :
  Forall (has_number sort_by) l ->
  Forall (fun a => number (sort_key sort_by a) <> None) l.
Proof.
  apply Forall_impl. intros a. unfold has_number.
  now rewrite sort_key_is_field, number_is_numeric_value.
Qed.

Lemma filter_pair_swap {A : Type} (p : A -> bool) (a b : A) :
  p a && p b = false -> filter p [a; b] = filter p [b; a].
Proof. simpl. destruct (p a), (p b); simpl; congruence. Qed.

Section SortPatients.
Context {platform : Platform}.

(** What the handler answers on numbers. *)
Lemma sort_patients_numeric (sort_by order : string) (s : store) :
  In sort_by valid_fields ->
  In order valid_orders ->
  Forall (has_number sort_by) (stored_records s) ->
  sort_patients sort_by order s =
  (Ok (Body (Records (sort_ordered (sort_key sort_by) (stored_records s)
                        (String.eqb order "desc")))), s).
Proof.
  intros Hf Ho Hnum. apply str_in_In in Hf, Ho.
  unfold sort_patients. rewrite Hf, Ho. cbn [negb]. run_handler.
  change (Dict.values s) with (stored_records s).
  now rewrite (sorted_numeric _ _ _ (has_number_numeric _ _ Hnum)).
Qed.

(** C7, as the code has it. For a [sort_by] among height, weight, bmi and
    an [order] among asc, desc, on a file whose records each hold a number
    other than NaN in that field or lack the field, the sort returns the
    stored record values rearranged by the stored field, a record without
    the field counting as 0: ascending for asc, descending for desc, and
    records of equal value in the order the file has them.  The file is
    not written. *)
Theorem sort_patients_orders_records (sort_by order : string) (s : store) :
  In sort_by valid_fields ->
  In order valid_orders ->
  Forall (has_number sort_by) (stored_records s) ->
  exists out,
    sort_patients sort_by order s = (Ok (Body (Records out)), s) /\
    Permutation (stored_records s) out /\
    (order = "asc" -> ascending sort_by out) /\
    (order = "desc" -> descending sort_by out) /\
    (forall v, with_value sort_by v out =
               with_value sort_by v (stored_records s)).
Proof.
  intros Hf Ho Hnum.
  eexists. split; [now apply sort_patients_numeric|].
  destruct (sort_ordered_numeric (sort_key sort_by) (stored_records s)
              (String.eqb order "desc") (has_number_numeric _ _ Hnum))
    as (Hperm & Hord & Hst).
  split; [exact Hperm|]. split; [|split].
  - intros ->. simpl in Hord. unfold ascending.
    eapply StronglySorted_impl; [|exact Hord].
    intros a b. apply le_is_field_le.
  - intros ->. simpl in Hord. unfold descending.
    eapply StronglySorted_impl; [|exact Hord].
    intros a b. apply le_is_field_le.
  - intros v. rewrite <- !bucket_is_with_value. apply Hst.
Qed.

(** X15. On numbers the answer of the sort is the only list there can
    be: any list that is in the requested order and keeps the records of
    each value in the order of the file is the list the sort returns. *)
Theorem sort_result_is_unique (sort_by order : string) (s : store)
    (out : list record) :
  In sort_by valid_fields ->
  In order valid_orders ->
  Forall (has_number sort_by) (stored_records s) ->
  (order = "asc" -> ascending sort_by out) ->
  (order = "desc" -> descending sort_by out) ->
  (forall v, with_value sort_by v out =
             with_value sort_by v (stored_records s)) ->
  sort_patients sort_by order s = (Ok (Body (Records out)), s).
Proof.
  intros Hf Ho Hnum Hasc Hdesc Hst.
  rewrite (sort_patients_numeric _ _ _ Hf Ho Hnum).
  pose proof (has_number_numeric _ _ Hnum) as Hnum'.
  destruct (sort_ordered_numeric (sort_key sort_by) (stored_records s)
              (String.eqb order "desc") Hnum') as (Hperm & Hord & Hstr).
  set (r := sort_ordered (sort_key sort_by) (stored_records s)
              (String.eqb order "desc")) in *.
  assert (Hr : Forall (fun a => number (sort_key sort_by a) <> None) r)
    by (eapply Permutation_Forall; [exact Hperm | exact Hnum']).
  enough (r = out) as -> by reflexivity.
  assert (Hbuckets : forall v,
            filter (fun a => match number (sort_key sort_by a), v with
                             | Some x, Some y => xeqb x y
                             | None, None => true
                             | _, _ => false
                             end) r =
            filter (fun a => match number (sort_key sort_by a), v with
                             | Some x, Some y => xeqb x y
                             | None, None => true
                             | _, _ => false
                             end) out).
  { intros v. rewrite Hstr, !bucket_is_with_value. now rewrite Hst. }
  simpl in Ho. destruct Ho as [<- | [<- | []]]; simpl in Hord.
  - apply (stable_ascending_unique (sort_key sort_by)); auto.
    eapply StronglySorted_impl; [|apply Hasc; reflexivity].
    intros a b. apply le_is_field_le.
  - rewrite <- (rev_involutive r), <- (rev_involutive out). f_equal.
    apply (stable_ascending_unique (sort_key sort_by)).
    + now apply Forall_rev.
    + apply StronglySorted_rev in Hord.
      eapply StronglySorted_impl; [|exact Hord]. auto.
    + specialize (Hdesc eq_refl). unfold descending in Hdesc.
      apply StronglySorted_rev in Hdesc.
      eapply StronglySorted_impl; [|exact Hdesc].
      intros a b. apply le_is_field_le.
    + intros v. now rewrite !filter_rev, Hbuckets.
Qed.
(** X14. With valid parameters, on a file of two or more records, the
    sort raises [TypeError] as soon as two records hold values in the
    field that [<] does not accept together: a number and a string, or a
    null or an object in any record (the two records may be the same
    one).  Nothing is answered and the file is not written. *)
Theorem sort_incomparable_raises (sort_by order : string) (s : store)
    (r1 r2 : record) :
  In sort_by valid_fields ->
  In order valid_orders ->
  (2 <= List.length (stored_records s))%nat ->
  In r1 (stored_records s) ->
  In r2 (stored_records s) ->
  comparable (field_or_zero sort_by r1) (field_or_zero sort_by r2) = false ->
  sort_patients sort_by order s = (Raise TypeError, s).
Proof.
  intros Hf Ho Hlen H1 H2 Hc. apply str_in_In in Hf, Ho.
  unfold sort_patients. rewrite Hf, Ho. cbn [negb]. run_handler.
  change (Dict.values s) with (stored_records s).
  rewrite <- !sort_key_is_field in Hc.
  now rewrite (sorted_incomparable _ _ _ _ _ Hlen H1 H2 Hc).
Qed.
End SortPatients.

Lemma sort_patients_orders_records_witness :
  In "bmi" valid_fields /\ In "desc" valid_orders /\
  Forall (has_number "bmi") (stored_records two_patients) /\
  exists out,
    sort_patients "bmi" "desc" two_patients =
    (Ok (Body (Records out)), two_patients) /\
    Permutation (stored_records two_patients) out /\
    ("desc" = "asc" -> ascending "bmi" out) /\
    ("desc" = "desc" -> descending "bmi" out) /\
    (forall v, with_value "bmi" v out =
               with_value "bmi" v (stored_records two_patients)).
Proof.
  assert (Hf : In "bmi" valid_fields) by (simpl; auto).
  assert (Ho : In "desc" valid_orders) by (simpl; auto).
  assert (Hn : Forall (has_number "bmi") (stored_records two_patients))
    by (repeat constructor; vm_compute; discriminate).
  split; [exact Hf|]. split; [exact Ho|]. split; [exact Hn|].
  exact (sort_patients_orders_records "bmi" "desc" two_patients Hf Ho Hn).
Defined.

(** C7, as the spec words it, fails: on a file that holds a string in the
    field of one record and a number in that of another the comparison
    raises and nothing is returned. *)
Lemma sort_mixed_keys_raises :
  let s := [("1", [("height", JStr "tall")]);
            ("2", [("height", JInt 150)])] in
  In "height" valid_fields /\ In "asc" valid_orders /\
  sort_patients "height" "asc" s = (Raise TypeError, s) /\
  sort_patients "height" "desc" s = (Raise TypeError, s).
Proof.
  simpl. split; [auto|]. split; [auto|]. split; reflexivity.
Qed.

Lemma sort_result_is_unique_witness :
  sort_patients "height" "asc" two_patients =
  (Ok (Body (Records [jane_record; john_record])), two_patients).
Proof.
  refine (sort_result_is_unique "height" "asc" two_patients
            [jane_record; john_record] _ _ _ _ _ _).
  - simpl. auto.
  - simpl. auto.
  - repeat constructor; vm_compute; discriminate.
  - intros _. unfold ascending. repeat constructor.
  - discriminate.
  - intros v. unfold with_value. apply filter_pair_swap. cbv beta. cbn [snd].
    destruct (numeric_value (field_or_zero "height" jane_record))
      as [x|] eqn:Ex; [|vm_compute in Ex; discriminate Ex].
    destruct (numeric_value (field_or_zero "height" john_record))
      as [y|] eqn:Ey; [|vm_compute in Ey; discriminate Ey].
    destruct v as [v|]; [|reflexivity].
    destruct (xeqb x v) eqn:E1; [|reflexivity].
    destruct (xeqb y v) eqn:E2; [|reflexivity].
    exfalso. rewrite xeqb_sym in E2.
    pose proof (xeqb_trans _ _ _ E1 E2) as E3.
    vm_compute in Ex, Ey. inversion Ex. inversion Ey. subst x y.
    vm_compute in E3. discriminate E3.
Defined.

Lemma sort_incomparable_raises_witness :
  sort_patients "weight" "desc" null_weight = (Raise TypeError, null_weight).
Proof.
  refine (sort_incomparable_raises "weight" "desc" null_weight
            [("name", JStr "x"); ("weight", JNull)]
            [("name", JStr "x"); ("weight", JNull)] _ _ _ _ _ _).
  - simpl. auto.
  - simpl. auto.
  - simpl. lia.
  - simpl. auto.
  - simpl. auto.
  - reflexivity.
Defined.

(** The example of the specification: A (180 cm, 75 kg) and B (160 cm,
    50 kg), created one after the other and sorted by bmi, descending. *)
Example sort_by_bmi_desc :
  let a := Patient.Build "A" "Ann" "Rome" 30 "Female" 180%float 75%float in
  let b := Patient.Build "B" "Bob" "Rome" 30 "Male" 160%float 50%float in
  exists ra rb s,
    snd (create_patient b (snd (create_patient a []))) = s /\
    s = [("A", ra); ("B", rb)] /\
    Dict.get "bmi" ra = Some (JFloat 23.15%float) /\
    Dict.get "bmi" rb = Some (JFloat 19.53%float) /\
    sort_patients "bmi" "desc" s = (Ok (Body (Records [ra; rb])), s) /\
    sort_patients "bmi" "asc" s = (Ok (Body (Records [rb; ra])), s).
Proof. do 3 eexists. repeat split; reflexivity. Qed.

(** Equal values keep the file's order in both directions. *)
Example sort_is_stable_both_ways :
  let r1 := [("name", JStr "x"); ("height", JInt 170)] in
  let r2 := [("name", JStr "y"); ("height", JFloat 170%float)] in
  let r3 := [("name", JStr "z"); ("height", JInt 150)] in
  let s := [("1", r1); ("2", r2); ("3", r3)] in
  sort_patients "height" "asc" s = (Ok (Body (Records [r3; r1; r2])), s) /\
  sort_patients "height" "desc" s = (Ok (Body (Records [r1; r2; r3])), s).
Proof. split; reflexivity. Qed.

(** A record without the field sorts as 0: between -1 and 1. *)
Example sort_missing_field_counts_as_zero :
  let r1 := [("name", JStr "x"); ("weight", JInt 1)] in
  let r2 := [("name", JStr "y")] in
  let r3 := [("name", JStr "z"); ("weight", JFloat (-1)%float)] in
  let s := [("1", r1); ("2", r2); ("3", r3)] in
  Forall (has_number "weight") (stored_records s) /\
  sort_patients "weight" "asc" s = (Ok (Body (Records [r3; r2; r1])), s) /\
  sort_patients "weight" "desc" s = (Ok (Body (Records [r1; r2; r3])), s).
Proof.
  split; [repeat constructor; vm_compute; discriminate|].
  split; reflexivity.
Qed.

(** * Further properties of the handlers *)

(** ** Create, view and delete together *)

Lemma set_fresh {V : Type} (k : string) (v : V) (d : Dict.dict V) :
  Dict.get k d = None -> Dict.set k v d = (d ++ [(k, v)])%list.
Proof.
  induction d as [|[k0 v0] d IH]; simpl; intros H; auto.
  destruct (String.eqb k k0); [discriminate|]. now rewrite IH.
Qed.

Lemma del_set_fresh {V : Type} (k : string) (v : V) (d : Dict.dict V) :
  Dict.get k d = None -> Dict.del k (Dict.set k v d) = d.
Proof.
  induction d as [|[k0 v0] d IH]; simpl; intros H.
  - now rewrite String.eqb_refl.
  - destruct (String.eqb k k0) eqn:E; [discriminate|].
    simpl. rewrite E. now rewrite IH.
Qed.

Lemma del_as_filter {V : Type} (k : string) (d : Dict.dict V) :
  Dict.wf d ->
  Dict.del k d = filter (fun kv => negb (String.eqb k (fst kv))) d.
Proof.
  unfold Dict.wf. induction d as [|[k0 v0] d IH]; simpl; intros Hwf; auto.
  inversion Hwf as [|? ? Hnotin Hnd]; subst.
  destruct (String.eqb k k0) eqn:E; simpl.
  - apply String.eqb_eq in E. subst k0.
    symmetry. apply forallb_filter_id. apply forallb_forall.
    intros [k1 v1] Hin. simpl. apply negb_true_iff, String.eqb_neq.
    intros ->. apply Hnotin. now apply (in_map fst) in Hin.
  - now rewrite IH.
Qed.

Section CreateViewDelete.
Context {platform : Platform}.

(** What a create does on an identifier the file does not hold yet. *)
Lemma create_fresh (patient : Patient.t) (rec : record) (s : store) :
  ~ In (Patient.id patient) (Dict.keys s) ->
  Patient.model_dump_exclude_id patient = Ok rec ->
  create_patient patient s =
  (Ok (JSONResponse 201 (Message "Patient created successfully")),
   Dict.set (Patient.id patient) rec s).
Proof.
  intros Hnin Hd.
  apply DictFacts.get_None_notin, DictFacts.mem_false_get in Hnin.
  unfold create_patient. run_handler. now rewrite Hnin, Hd.
Qed.

(** X1. A create on an identifier the file does not hold answers 201 and
    appends one entry after all the others: the identifier with the dump
    of the patient.  The entries already there keep their place. *)
Theorem create_appends_record (patient : Patient.t) (rec : record)
    (s : store) :
  ~ In (Patient.id patient) (Dict.keys s) ->
  Patient.model_dump_exclude_id patient = Ok rec ->
  create_patient patient s =
  (Ok (JSONResponse 201 (Message "Patient created successfully")),
   (s ++ [(Patient.id patient, rec)])%list).
Proof.
  intros Hnin Hd. rewrite (create_fresh patient rec s Hnin Hd).
  apply DictFacts.get_None_notin in Hnin. now rewrite set_fresh.
Qed.

(** X2. After such a create, viewing the identifier gives back exactly
    the dump of the patient that was created. *)
Theorem create_then_view (patient : Patient.t) (rec : record) (s : store) :
  ~ In (Patient.id patient) (Dict.keys s) ->
  Patient.model_dump_exclude_id patient = Ok rec ->
  exists s',
    create_patient patient s =
    (Ok (JSONResponse 201 (Message "Patient created successfully")), s') /\
    view_patient (Patient.id patient) s' = (Ok (Body (OnePatient rec)), s').
Proof.
  intros Hnin Hd.
  exists (Dict.set (Patient.id patient) rec s).
  split; [now apply create_fresh|].
  unfold view_patient. run_handler. now rewrite DictFacts.get_set_same.
Qed.

(** X3. Deleting right after such a create gives back the file as it was
    before the create, entry for entry. *)
Theorem create_then_delete (patient : Patient.t) (rec : record) (s : store) :
  ~ In (Patient.id patient) (Dict.keys s) ->
  Patient.model_dump_exclude_id patient = Ok rec ->
  exists s',
    create_patient patient s =
    (Ok (JSONResponse 201 (Message "Patient created successfully")), s') /\
    delete_patient (Patient.id patient) s' =
    (Ok (JSONResponse 200 (Message "Patient deleted successfully")), s).
Proof.
  intros Hnin Hd.
  exists (Dict.set (Patient.id patient) rec s).
  split; [now apply create_fresh|].
  unfold delete_patient, Dict.mem. run_handler.
  rewrite DictFacts.get_set_same. simpl.
  apply DictFacts.get_None_notin in Hnin. now rewrite del_set_fresh.
Qed.

(** X4. Deleting an identifier that is no key of the file answers with a
    404 response ("Patient not found") and writes nothing. *)
Theorem delete_missing_is_not_found (patient_id : string) (s : store) :
  ~ In patient_id (Dict.keys s) ->
  delete_patient patient_id s =
  (Ok (JSONResponse 404 (Message "Patient not found")), s) /\
  serve (delete_patient patient_id) s = (404%Z, s).
Proof.
  intros Hnin. apply DictFacts.get_None_notin, DictFacts.mem_false_get in Hnin.
  unfold delete_patient. run_handler. now rewrite Hnin.
Qed.

(** X5. Deleting an identifier the file holds removes that one entry and
    leaves all the others in the order they had. *)
Theorem delete_removes_one_entry (patient_id : string) (s : store) :
  Dict.wf s ->
  In patient_id (Dict.keys s) ->
  delete_patient patient_id s =
  (Ok (JSONResponse 200 (Message "Patient deleted successfully")),
   filter (fun kv => negb (String.eqb patient_id (fst kv))) s).
Proof.
  intros Hwf Hin. apply mem_true_In in Hin.
  unfold delete_patient. run_handler. rewrite Hin. simpl.
  now rewrite del_as_filter.
Qed.

(** X6. The handlers that only read ([hello], [about], [view],
    [view_patient], [sort_patients]) leave the file exactly as it is,
    whatever they answer and also when the sort raises; [view] answers
    with the whole file. *)
Theorem readers_never_write (s : store) :
  snd (hello s) = s /\
  snd (about s) = s /\
  view s = (Ok (Body (Patients s)), s) /\
  (forall patient_id, snd (view_patient patient_id s) = s) /\
  (forall sort_by order, snd (sort_patients sort_by order s) = s).
Proof.
  repeat split.
  - intros pid. unfold view_patient. run_handler.
    now destruct (Dict.get pid s).
  - intros sort_by order. unfold sort_patients.
    destruct (negb (str_in sort_by valid_fields)); [reflexivity|].
    destruct (negb (str_in order valid_orders)); [reflexivity|].
    run_handler.
    now destruct (sorted (sort_key sort_by) (Dict.values s) _).
Qed.
End CreateViewDelete.

Lemma create_appends_record_witness :
  ~ In (Patient.id john) (Dict.keys [("P002", jane_record)]) /\
  Patient.model_dump_exclude_id john = Ok john_record /\
  create_patient john [("P002", jane_record)] =
  (Ok (JSONResponse 201 (Message "Patient created successfully")),
   ([("P002", jane_record)] ++ [(Patient.id john, john_record)])%list).
Proof.
  assert (Hnin : ~ In (Patient.id john) (Dict.keys [("P002", jane_record)])).
  { simpl. intros [H | []]. discriminate H. }
  assert (Hd : Patient.model_dump_exclude_id john = Ok john_record)
    by reflexivity.
  split; [exact Hnin|]. split; [exact Hd|].
  exact (create_appends_record john john_record [("P002", jane_record)]
           Hnin Hd).
Defined.

Lemma create_then_view_witness :
  ~ In (Patient.id john) (Dict.keys [("P002", jane_record)]) /\
  Patient.model_dump_exclude_id john = Ok john_record /\
  exists s',
    create_patient john [("P002", jane_record)] =
    (Ok (JSONResponse 201 (Message "Patient created successfully")), s') /\
    view_patient (Patient.id john) s' =
    (Ok (Body (OnePatient john_record)), s').
Proof.
  assert (Hnin : ~ In (Patient.id john) (Dict.keys [("P002", jane_record)])).
  { simpl. intros [H | []]. discriminate H. }
  assert (Hd : Patient.model_dump_exclude_id john = Ok john_record)
    by reflexivity.
  split; [exact Hnin|]. split; [exact Hd|].
  exact (create_then_view john john_record [("P002", jane_record)] Hnin Hd).
Defined.

Lemma create_then_delete_witness :
  ~ In (Patient.id john) (Dict.keys [("P002", jane_record)]) /\
  Patient.model_dump_exclude_id john = Ok john_record /\
  exists s',
    create_patient john [("P002", jane_record)] =
    (Ok (JSONResponse 201 (Message "Patient created successfully")), s') /\
    delete_patient (Patient.id john) s' =
    (Ok (JSONResponse 200 (Message "Patient deleted successfully")),
     [("P002", jane_record)]).
Proof.
  assert (Hnin : ~ In (Patient.id john) (Dict.keys [("P002", jane_record)])).
  { simpl. intros [H | []]. discriminate H. }
  assert (Hd : Patient.model_dump_exclude_id john = Ok john_record)
    by reflexivity.
  split; [exact Hnin|]. split; [exact Hd|].
  exact (create_then_delete john john_record [("P002", jane_record)]
           Hnin Hd).
Defined.

Lemma delete_missing_is_not_found_witness :
  ~ In "P404" (Dict.keys two_patients) /\
  delete_patient "P404" two_patients =
  (Ok (JSONResponse 404 (Message "Patient not found")), two_patients) /\
  serve (delete_patient "P404") two_patients = (404%Z, two_patients).
Proof.
  assert (Hnin : ~ In "P404" (Dict.keys two_patients)).
  { simpl. intros [H | [H | []]]; discriminate. }
  split; [exact Hnin|].
  exact (delete_missing_is_not_found "P404" two_patients Hnin).
Defined.

Lemma delete_removes_one_entry_witness :
  Dict.wf two_patients /\ In "P001" (Dict.keys two_patients) /\
  delete_patient "P001" two_patients =
  (Ok (JSONResponse 200 (Message "Patient deleted successfully")),
   filter (fun kv => negb (String.eqb "P001" (fst kv))) two_patients).
Proof.
  assert (Hwf : Dict.wf two_patients).
  { unfold Dict.wf. simpl. repeat constructor; simpl; intuition discriminate. }
  assert (Hin : In "P001" (Dict.keys two_patients)) by (simpl; auto).
  split; [exact Hwf|]. split; [exact Hin|].
  exact (delete_removes_one_entry "P001" two_patients Hwf Hin).
Defined.

(** ** More on the partial update *)

Lemma run_preserves_wf_witness :
  Dict.wf two_patients /\
  Dict.wf (snd (run no_str_as_int no_str_as_float
                  (Update "P002" (weight_only 55%float)) two_patients)).
Proof.
  assert (Hwf : Dict.wf two_patients).
  { unfold Dict.wf. simpl. repeat constructor; simpl; intuition discriminate. }
  split; [exact Hwf|].
  exact (run_preserves_wf no_str_as_int no_str_as_float
           (Update "P002" (weight_only 55%float)) two_patients _ _ Hwf
           (surjective_pairing _)).
Defined.

Lemma set_set_same {V : Type} (k : string) (v v' : V) (d : Dict.dict V) :
  Dict.set k v (Dict.set k v' d) = Dict.set k v d.
Proof.
  induction d as [|[k0 v0] d IH]; simpl.
  - now rewrite String.eqb_refl.
  - destruct (String.eqb k k0) eqn:E; simpl.
    + now rewrite String.eqb_refl.
    + now rewrite E, IH.
Qed.

Section UpdateMore.
Context {platform : Platform}.
Variable str_as_int : string -> option Z.
Variable str_as_float : string -> option float.

Local Abbreviation validate := (Patient.validate str_as_int str_as_float).
Local Abbreviation update := (update_patient str_as_int str_as_float).

Lemma merged_record_get (patient_id : string) (u : PatientUpdate.t)
    (old : record) (f : string) :
  f <> "id" ->
  Dict.get f (merged_record patient_id u old) = merged_value u old f.
Proof.
  intros Hf. unfold merged_record, merged_value.
  rewrite DictFacts.get_set_other by assumption.
  rewrite merge_get by apply payload_wf. now rewrite payload_get.
Qed.

Lemma merged_record_id (patient_id : string) (u : PatientUpdate.t)
    (old : record) :
  Dict.get "id" (merged_record patient_id u old) = Some (JStr patient_id).
Proof. apply DictFacts.get_set_same. Qed.

(** The update on an identifier the file holds, in one step. *)
Lemma update_found (patient_id : string) (u : PatientUpdate.t) (s : store)
    (old : record) :
  Dict.get patient_id s = Some old ->
  update patient_id u s =
  match validate (merged_record patient_id u old) with
  | Raise e => (Raise e, s)
  | Ok p =>
      match Patient.model_dump_exclude_id p with
      | Raise e => (Raise e, s)
      | Ok rec =>
          (Ok (JSONResponse 200 (Message "Patient updated successfully")),
           Dict.set patient_id rec s)
      end
  end.
Proof.
  intros Hget. unfold update_patient, merged_record. run_handler.
  rewrite Hget.
  destruct (Patient.validate _ _ _) as [p|]; [|reflexivity].
  now destruct (Patient.model_dump_exclude_id p).
Qed.

(** Validation succeeds with [p] exactly when the seven fields validate to
    the fields of [p] and [p] meets the constraints. *)
Lemma validate_fields (kwargs : record) (p : Patient.t) :
  validate kwargs = Ok p <->
  Patient.validate_str (Dict.get "id" kwargs) = Ok (Patient.id p) /\
  Patient.validate_str (Dict.get "name" kwargs) = Ok (Patient.name p) /\
  Patient.validate_str (Dict.get "city" kwargs) = Ok (Patient.city p) /\
  Patient.validate_int str_as_int (Dict.get "age" kwargs) =
    Ok (Patient.age p) /\
  Patient.validate_str (Dict.get "gender" kwargs) = Ok (Patient.gender p) /\
  Patient.validate_float str_as_float (Dict.get "height" kwargs) =
    Ok (Patient.height p) /\
  Patient.validate_float str_as_float (Dict.get "weight" kwargs) =
    Ok (Patient.weight p) /\
  Patient.constraints p = true.
Proof.
  unfold Patient.validate. split.
  - destruct (Patient.validate_str (Dict.get "id" kwargs)) as [i|];
      [|discriminate].
    destruct (Patient.validate_str (Dict.get "name" kwargs)) as [n|];
      [|discriminate].
    destruct (Patient.validate_str (Dict.get "city" kwargs)) as [c|];
      [|discriminate].
    destruct (Patient.validate_int str_as_int (Dict.get "age" kwargs))
      as [a|]; [|discriminate].
    destruct (Patient.validate_str (Dict.get "gender" kwargs)) as [g|];
      [|discriminate].
    destruct (Patient.validate_float str_as_float (Dict.get "height" kwargs))
      as [h|]; [|discriminate].
    destruct (Patient.validate_float str_as_float (Dict.get "weight" kwargs))
      as [w|]; [|discriminate].
    cbn [rbind].
    destruct (Patient.constraints (Patient.Build i n c a g h w)) eqn:Hc;
      [|discriminate].
    intros H. inversion H. subst p. cbn. auto 10.
  - intros (Hi & Hn & Hc & Ha & Hg & Hh & Hw & Hcons).
    rewrite Hi, Hn, Hc, Ha, Hg, Hh, Hw. cbn [rbind].
    destruct p as [i n c a g h w]. cbn in *. now rewrite Hcons.
Qed.

(** X8. An update never adds, removes or reorders identifiers: whatever
    it answers, the file has the same keys in the same order afterwards. *)
Theorem update_keeps_identifiers (patient_id : string) (u : PatientUpdate.t)
    (s : store) :
  Dict.keys (snd (update patient_id u s)) = Dict.keys s.
Proof.
  destruct (Dict.get patient_id s) as [old|] eqn:Hget.
  - rewrite (update_found _ _ _ _ Hget).
    destruct (validate _) as [p|]; [|reflexivity].
    destruct (Patient.model_dump_exclude_id p) as [rec|]; [|reflexivity].
    simpl. apply DictFacts.keys_set_in. congruence.
  - unfold update_patient. run_handler. now rewrite Hget.
Qed.

(** X9. An update is rejected whenever a base field of the merged record
    is absent or null: a field the stored record lacks and the payload
    does not supply, or a field the payload sets to null.  The record
    model raises its validation error and the file is left as it was. *)
Theorem update_rejects_absent_or_null (patient_id : string)
    (u : PatientUpdate.t) (s : store) (old : record) (f : string) :
  Dict.get patient_id s = Some old ->
  In f base_fields ->
  merged_value u old f = None \/ merged_value u old f = Some JNull ->
  update patient_id u s = (Raise ValidationError, s).
Proof.
  intros Hget Hf Hbad. rewrite (update_found _ _ _ _ Hget).
  destruct (validate (merged_record patient_id u old)) as [p|e] eqn:Ev.
  - exfalso. apply validate_fields in Ev.
    destruct Ev as (_ & Hn & Hc & Ha & Hg & Hh & Hw & _).
    simpl in Hf.
    destruct Hf as [<- | [<- | [<- | [<- | [<- | [<- | []]]]]]];
      rewrite <- merged_record_get with (patient_id := patient_id) in Hbad
        by discriminate;
      destruct Hbad as [Hb | Hb];
      match goal with
      | H : _ (Dict.get ?k _) = Ok _ |- _ =>
          match type of Hb with
          | Dict.get k _ = _ => rewrite Hb in H; discriminate H
          end
      | H : _ _ (Dict.get ?k _) = Ok _ |- _ =>
          match type of Hb with
          | Dict.get k _ = _ => rewrite Hb in H; discriminate H
          end
      end.
  - now rewrite (validate_raises _ _ _ _ Ev).
Qed.

(** The record model takes the dump of [p], merged with a payload that
    validated to [p] before, back to [p]. *)
Lemma validate_after_update (patient_id : string) (u : PatientUpdate.t)
    (old rec : record) (p : Patient.t) :
  validate (merged_record patient_id u old) = Ok p ->
  Patient.model_dump_exclude_id p = Ok rec ->
  validate (merged_record patient_id u rec) = Ok p.
Proof.
  intros Hv Hd. apply validate_fields in Hv. apply validate_fields.
  destruct Hv as (Hi & Hn & Hc & Ha & Hg & Hh & Hw & Hcons).
  destruct (model_dump_inv _ _ Hd) as (b & v & _ & _ & ->).
  rewrite merged_record_id in *.
  rewrite !merged_record_get in * by discriminate.
  unfold merged_value in *.
  split; [exact Hi|].
  split; [destruct (supplied u "name"); [exact Hn | reflexivity]|].
  split; [destruct (supplied u "city"); [exact Hc | reflexivity]|].
  split; [destruct (supplied u "age"); [exact Ha | reflexivity]|].
  split; [destruct (supplied u "gender"); [exact Hg | reflexivity]|].
  split; [destruct (supplied u "height"); [exact Hh | reflexivity]|].
  split; [destruct (supplied u "weight"); [exact Hw | reflexivity]|].
  exact Hcons.
Qed.

(** X10. An update is idempotent: sending the same payload to the same
    identifier a second time gives the same answer and leaves the file
    exactly as the first update left it. *)
Theorem update_idempotent (patient_id : string) (u : PatientUpdate.t)
    (s s' : store) (r : response) :
  update patient_id u s = (Ok r, s') ->
  update patient_id u s' = (Ok r, s').
Proof.
  destruct (Dict.get patient_id s) as [old|] eqn:Hget.
  - rewrite (update_found _ _ _ _ Hget).
    destruct (validate (merged_record patient_id u old)) as [p|] eqn:Ev;
      [|discriminate].
    destruct (Patient.model_dump_exclude_id p) as [rec|] eqn:Ed;
      [|discriminate].
    intros H. inversion H. subst r s'.
    rewrite (update_found _ _ _ rec) by apply DictFacts.get_set_same.
    rewrite (validate_after_update _ _ _ _ _ Ev Ed), Ed.
    now rewrite set_set_same.
  - unfold update_patient. run_handler. rewrite Hget.
    intros H. inversion H. subst. now rewrite Hget.
Qed.

Lemma validate_ext (k1 k2 : record) :
  (forall f, In f ("id" :: base_fields) -> Dict.get f k1 = Dict.get f k2) ->
  validate k1 = validate k2.
Proof.
  intros H. unfold Patient.validate.
  rewrite !(H "id"), !(H "name"), !(H "city"), !(H "age"), !(H "gender"),
    !(H "height"), !(H "weight") by (simpl; auto 10).
  reflexivity.
Qed.

(** X11. What an update stores depends on the payload and on the base
    fields of the stored record only: a stored bmi, a stored verdict or
    any other key of the old record has no influence.  Two files whose
    records for the identifier agree on the base fields get the same
    answer and the same new record. *)
Theorem update_ignores_other_keys (patient_id : string)
    (u : PatientUpdate.t) (s1 s2 : store) (old1 old2 : record) :
  Dict.get patient_id s1 = Some old1 ->
  Dict.get patient_id s2 = Some old2 ->
  (forall f, In f base_fields -> Dict.get f old1 = Dict.get f old2) ->
  (exists e,
     update patient_id u s1 = (Raise e, s1) /\
     update patient_id u s2 = (Raise e, s2)) \/
  (exists rec,
     update patient_id u s1 =
     (Ok (JSONResponse 200 (Message "Patient updated successfully")),
      Dict.set patient_id rec s1) /\
     update patient_id u s2 =
     (Ok (JSONResponse 200 (Message "Patient updated successfully")),
      Dict.set patient_id rec s2)).
Proof.
  intros H1 H2 Hagree.
  rewrite (update_found _ _ _ _ H1), (update_found _ _ _ _ H2).
  assert (Hv : validate (merged_record patient_id u old1) =
               validate (merged_record patient_id u old2)).
  { apply validate_ext. intros f [<- | Hf].
    - now rewrite !merged_record_id.
    - assert (Hne : f <> "id").
      { intros ->. simpl in Hf. intuition discriminate. }
      rewrite !merged_record_get by assumption.
      unfold merged_value. destruct (supplied u f); [reflexivity|].
      now apply Hagree. }
  rewrite <- Hv.
  destruct (validate (merged_record patient_id u old1)) as [p|e].
  - destruct (Patient.model_dump_exclude_id p) as [rec|e]; eauto.
  - eauto.
Qed.
End UpdateMore.

Lemma update_rejects_absent_or_null_witness :
  Dict.get "P001" two_patients = Some john_record /\
  update_patient no_str_as_int no_str_as_float "P001"
    (PatientUpdate.Build (Some None) None None None None None) two_patients =
  (Raise ValidationError, two_patients).
Proof.
  assert (Hget : Dict.get "P001" two_patients = Some john_record)
    by reflexivity.
  split; [exact Hget|].
  refine (update_rejects_absent_or_null no_str_as_int no_str_as_float "P001"
            (PatientUpdate.Build (Some None) None None None None None)
            two_patients john_record "name" Hget _ _).
  - simpl. auto.
  - right. reflexivity.
Defined.

Lemma update_idempotent_witness :
  exists r s',
    update_patient no_str_as_int no_str_as_float "P002" (weight_only 55%float)
      two_patients = (Ok r, s') /\
    update_patient no_str_as_int no_str_as_float "P002" (weight_only 55%float)
      s' = (Ok r, s').
Proof.
  eexists. eexists.
  assert (H : update_patient no_str_as_int no_str_as_float "P002"
                (weight_only 55%float) two_patients =
              (Ok (JSONResponse 200 (Message "Patient updated successfully")),
               snd (update_patient no_str_as_int no_str_as_float "P002"
                      (weight_only 55%float) two_patients))) by reflexivity.
  split; [exact H|].
  exact (update_idempotent no_str_as_int no_str_as_float "P002"
           (weight_only 55%float) two_patients _ _ H).
Defined.

Lemma update_ignores_other_keys_witness :
  exists rec,
    update_patient no_str_as_int no_str_as_float "P001" (weight_only 80%float)
      two_patients =
    (Ok (JSONResponse 200 (Message "Patient updated successfully")),
     Dict.set "P001" rec two_patients) /\
    update_patient no_str_as_int no_str_as_float "P001" (weight_only 80%float)
      [("P001", john_stale)] =
    (Ok (JSONResponse 200 (Message "Patient updated successfully")),
     Dict.set "P001" rec [("P001", john_stale)]).
Proof.
  assert (H1 : Dict.get "P001" two_patients = Some john_record)
    by reflexivity.
  assert (H2 : Dict.get "P001" [("P001", john_stale)] = Some john_stale)
    by reflexivity.
  assert (Hagree : forall f, In f base_fields ->
                     Dict.get f john_record = Dict.get f john_stale).
  { intros f Hf. simpl in Hf.
    destruct Hf as [<- | [<- | [<- | [<- | [<- | [<- | []]]]]]]; reflexivity. }
  destruct (update_ignores_other_keys no_str_as_int no_str_as_float "P001"
              (weight_only 80%float) two_patients [("P001", john_stale)]
              john_record john_stale H1 H2 Hagree)
    as [(e & He & _) | Hok].
  - exfalso. vm_compute in He. discriminate He.
  - exact Hok.
Defined.

(** ** More on the record model *)

Section RecordRoundTrip.
Context {platform : Platform}.
Variable str_as_int : string -> option Z.
Variable str_as_float : string -> option float.

(** X13. Dump and validation are inverse: the record model reads the
    dump of an admissible record, with the identifier put back, as the
    very same record.  Hence every record the service writes re-validates,
    and to the record it was written from. *)
Theorem validate_dump_round_trip (p : Patient.t) (rec : record) :
  Patient.constraints p = true ->
  Patient.model_dump_exclude_id p = Ok rec ->
  Patient.validate str_as_int str_as_float
    (Dict.set "id" (JStr (Patient.id p)) rec) = Ok p.
Proof.
  intros Hc Hd.
  destruct (model_dump_inv _ _ Hd) as (b & v & _ & _ & ->).
  destruct p as [i n c a g h w]. unfold Patient.validate. cbn in *.
  now rewrite Hc.
Qed.
End RecordRoundTrip.

Lemma validate_dump_round_trip_witness :
  Patient.validate no_str_as_int no_str_as_float
    (Dict.set "id" (JStr (Patient.id john)) john_record) = Ok john.
Proof.
  refine (validate_dump_round_trip no_str_as_int no_str_as_float john
            john_record _ _); reflexivity.
Defined.

(** ** The empty update *)

Lemma set_get_same {V : Type} (k : string) (v : V) (d : Dict.dict V) :
  Dict.get k d = Some v -> Dict.set k v d = d.
Proof.
  induction d as [|[k0 v0] d IH]; simpl; [discriminate|].
  destruct (String.eqb k k0) eqn:E.
  - apply String.eqb_eq in E. intros H. inversion H. now subst.
  - intros H. now rewrite IH.
Qed.

Section EmptyUpdate.
Context {platform : Platform}.
Variable str_as_int : string -> option Z.
Variable str_as_float : string -> option float.

(** X16. An update that sets no field is a no-op on a record the service
    wrote itself: when the stored value is the dump of an admissible
    record, the answer is 200 and the file is exactly as it was. *)
Theorem update_nothing_is_noop (patient_id : string) (s : store)
    (p : Patient.t) (rec : record) :
  Dict.get patient_id s = Some rec ->
  Patient.constraints p = true ->
  Patient.model_dump_exclude_id p = Ok rec ->
  update_patient str_as_int str_as_float patient_id nothing_set s =
  (Ok (JSONResponse 200 (Message "Patient updated successfully")), s).
Proof.
  intros Hget Hc Hd.
  rewrite (update_found _ _ _ _ _ _ Hget).
  destruct (model_dump_inv _ _ Hd) as (b & v & Hb & Hv & ->).
  destruct p as [i n c a g h w]. cbn in *.
  unfold Patient.validate. cbn.
  unfold Patient.constraints in *. cbn in *. rewrite Hc.
  unfold Patient.model_dump_exclude_id, Patient.verdict, Patient.bmi in *.
  cbn in *. rewrite Hb in *. cbn in *. rewrite Hv. cbn.
  now rewrite set_get_same.
Qed.
End EmptyUpdate.

Lemma update_nothing_is_noop_witness :
  update_patient no_str_as_int no_str_as_float "P001" nothing_set
    two_patients =
  (Ok (JSONResponse 200 (Message "Patient updated successfully")),
   two_patients).
Proof.
  refine (update_nothing_is_noop no_str_as_int no_str_as_float "P001"
            two_patients john john_record _ _ _); reflexivity.
Defined.
